(** * ip.js: IPv4 addresses and subnets

    A shallow embedding of [src/ip.js] (version 0.2.0, the UMD factory of
    lines 45-260; the file goes on with an earlier revision of the same
    functions, of which the two converters are embedded in [Legacy]) and
    the properties of it that the specification states.

    JavaScript values are modelled by the inductive [value]; numbers by
    [number], which holds the integer-valued doubles (exactly, as a [Z]),
    [NaN] and the two infinities.  Every number the library computes from
    such inputs is again of this form: the only divisions are by 256 and are
    followed by [Math.floor], and the only power is [Math.pow(2, bits)] with
    an integral [bits] between 0 and 32.  Finite numbers with a fractional
    part are not represented.  Integers stay far below 2^53 on every path
    that does arithmetic on them, so double arithmetic is exact there.

    Strings are [string]s whose characters stand for code units below 256. *)

From Stdlib Require Import ZArith List String Ascii Bool Lia.
From Stdlib Require Import DecimalString.
Import ListNotations.

Local Open Scope string_scope.
Local Open Scope Z_scope.

(** ** JavaScript values *)

Inductive number : Type :=
| Int (z : Z)
| NaN
| Infinity (negative : bool).

Inductive value : Type :=
| VUndefined
| VNull
| VBool (b : bool)
| VNum (n : number)
| VStr (s : string)
| VObject.

Inductive jstype : Type :=
| TUndefined | TObject | TBoolean | TNumber | TString.

Definition typeof (v : value) : jstype :=
  match v with
  | VUndefined => TUndefined
  | VNull => TObject
  | VBool _ => TBoolean
  | VNum _ => TNumber
  | VStr _ => TString
  | VObject => TObject
  end.

(** The two kinds of exception the library throws: [new TypeError(...)], kept
    with the [typeof] of the offending argument, and [new Error('Invalid IPv4
    address ...')], kept with the address the message quotes. *)
Inductive exn : Type :=
| TypeError (got : jstype)
| Error (address : value).

Inductive result (A : Type) : Type :=
| Ok (a : A)
| Throw (e : exn).
Arguments Ok {A} a.
Arguments Throw {A} e.

Definition bind {A B : Type} (r : result A) (k : A -> result B) : result B :=
  match r with
  | Ok a => k a
  | Throw e => Throw e
  end.

Notation "'let*' x ':=' r 'in' k" := (bind r (fun x => k))
  (at level 10, x name, r at level 100, k at level 200).

(** ** Number operations *)

Module Num.

(** [a < b], false as soon as an operand is [NaN]. *)
Definition lt (a b : number) : bool :=
  match a, b with
  | NaN, _ | _, NaN => false
  | Int x, Int y => x <? y
  | Int _, Infinity neg => negb neg
  | Infinity neg, Int _ => neg
  | Infinity n1, Infinity n2 => n1 && negb n2
  end.

Definition gt (a b : number) : bool := lt b a.

(** [a === b] on numbers. *)
Definition eq (a b : number) : bool :=
  match a, b with
  | Int x, Int y => x =? y
  | Infinity n1, Infinity n2 => Bool.eqb n1 n2
  | _, _ => false
  end.

(** [a <= b] and [a >= b]: equal or strictly ordered, false on [NaN]. *)
Definition le (a b : number) : bool := lt a b || eq a b.
Definition ge (a b : number) : bool := le b a.

Definition add (a b : number) : number :=
  match a, b with
  | NaN, _ | _, NaN => NaN
  | Int x, Int y => Int (x + y)
  | Int _, Infinity n | Infinity n, Int _ => Infinity n
  | Infinity n1, Infinity n2 => if Bool.eqb n1 n2 then Infinity n1 else NaN
  end.

Definition neg (a : number) : number :=
  match a with
  | Int x => Int (- x)
  | NaN => NaN
  | Infinity n => Infinity (negb n)
  end.

Definition sub (a b : number) : number := add a (neg b).

Definition mul (a b : number) : number :=
  match a, b with
  | NaN, _ | _, NaN => NaN
  | Int x, Int y => Int (x * y)
  | Int x, Infinity n | Infinity n, Int x =>
      if x =? 0 then NaN else Infinity (xorb n (x <? 0))
  | Infinity n1, Infinity n2 => Infinity (xorb n1 n2)
  end.

(** [a % 256]: the remainder takes the sign of the dividend. *)
Definition rem256 (a : number) : number :=
  match a with
  | Int x => Int (Z.rem x 256)
  | _ => NaN
  end.

(** [Math.floor(a / 256)].  The quotient by 2^8 is exact in double
    arithmetic, so its floor is the floor of the rational quotient. *)
Definition floor_div256 (a : number) : number :=
  match a with
  | Int x => Int (x / 256)
  | other => other
  end.

(** ToInt32 and ToUint32 of the bitwise operators. *)
Definition ToUint32 (a : number) : Z :=
  match a with
  | Int x => x mod 2 ^ 32
  | _ => 0
  end.

Definition wrap_int32 (x : Z) : Z := (x + 2 ^ 31) mod 2 ^ 32 - 2 ^ 31.

Definition ToInt32 (a : number) : Z :=
  match a with
  | Int x => wrap_int32 x
  | _ => 0
  end.

(** [a << b], [a >>> b] and [a & b]; the shift count is taken modulo 32. *)
Definition shl (a b : number) : number :=
  Int (wrap_int32 (Z.shiftl (ToInt32 a) (ToUint32 b mod 32))).

Definition ushr (a b : number) : number :=
  Int (Z.shiftr (ToUint32 a) (ToUint32 b mod 32)).

Definition land (a b : number) : number :=
  Int (wrap_int32 (Z.land (ToInt32 a) (ToInt32 b))).

(** Number::toString in base 10.  Integers are printed digit by digit (the
    library prints none of magnitude 10^21 or more, where JavaScript
    switches to exponent notation). *)
Definition toString (a : number) : string :=
  match a with
  | Int x => NilZero.string_of_int (Z.to_int x)
  | NaN => "NaN"
  | Infinity false => "Infinity"
  | Infinity true => "-Infinity"
  end.

(** The binary digits of a positive integer, most significant first. *)
Fixpoint bits_of_pos (p : positive) : string :=
  match p with
  | xH => "1"
  | xO q => bits_of_pos q ++ "0"
  | xI q => bits_of_pos q ++ "1"
  end.

(** Number::toString(2). *)
Definition toString2 (a : number) : string :=
  match a with
  | Int 0 => "0"
  | Int (Zpos p) => bits_of_pos p
  | Int (Zneg p) => "-" ++ bits_of_pos p
  | NaN => "NaN"
  | Infinity false => "Infinity"
  | Infinity true => "-Infinity"
  end.

End Num.

(** ToString of a value, as string concatenation and [parseInt] apply it. *)
Definition ToString (v : value) : string :=
  match v with
  | VUndefined => "undefined"
  | VNull => "null"
  | VBool true => "true"
  | VBool false => "false"
  | VNum n => Num.toString n
  | VStr s => s
  | VObject => "[object Object]"
  end.

(** ** String operations *)

Module Str.

(** [s.split('.')]: the pieces between the dots, at least one. *)
Fixpoint split_dot (s : string) : list string :=
  match s with
  | EmptyString => [EmptyString]
  | String c rest =>
      if Ascii.eqb c "."
      then EmptyString :: split_dot rest
      else match split_dot rest with
           | piece :: pieces => String c piece :: pieces
           | [] => [String c EmptyString]
           end
  end.

(** [decimals[i]]: [undefined] past the end. *)
Definition index (l : list string) (i : nat) : value :=
  match nth_error l i with
  | Some s => VStr s
  | None => VUndefined
  end.

(** [s.indexOf(c)] for a one-character [c]: -1 when absent. *)
Fixpoint indexOf (c : ascii) (s : string) : Z :=
  match s with
  | EmptyString => -1
  | String d rest =>
      if Ascii.eqb d c then 0
      else let i := indexOf c rest in
           if i =? -1 then -1 else i + 1
  end.

(** [s.lastIndexOf(c)] for a one-character [c]: -1 when absent. *)
Fixpoint lastIndexOf (c : ascii) (s : string) : Z :=
  match s with
  | EmptyString => -1
  | String d rest =>
      let i := lastIndexOf c rest in
      if i =? -1 then (if Ascii.eqb d c then 0 else -1) else i + 1
  end.

(** The white space [parseInt] skips, among the code units below 256:
    TAB, LF, VT, FF, CR, SP and NBSP. *)
Definition is_space (c : ascii) : bool :=
  let n := nat_of_ascii c in
  (Nat.leb 9 n && Nat.leb n 13) || Nat.eqb n 32 || Nat.eqb n 160.

Fixpoint skip_space (s : string) : string :=
  match s with
  | String c rest => if is_space c then skip_space rest else s
  | EmptyString => s
  end.

Definition digit_value (c : ascii) : option Z :=
  let n := nat_of_ascii c in
  if Nat.leb 48 n && Nat.leb n 57 then Some (Z.of_nat n - 48) else None.

(** The value of the longest prefix of decimal digits, [None] when the
    string starts with none; [acc] is [Some] of the digits read so far. *)
Fixpoint read_digits (acc : option Z) (s : string) : option Z :=
  match s with
  | EmptyString => acc
  | String c rest =>
      match digit_value c with
      | Some d =>
          read_digits (Some (10 * match acc with Some a => a | None => 0 end + d)) rest
      | None => acc
      end
  end.

End Str.

(** [parseInt(v, 10)]: ToString, skip the leading white space, read a sign,
    then the longest run of decimal digits; [NaN] when there is no digit.
    The integer is kept exactly: rounding one of more than 2^53 to a double
    changes no comparison with 255 or with 32, the only uses made of it. *)
Definition parseInt (v : value) : number :=
  let s := Str.skip_space (ToString v) in
  let '(negative, body) :=
    match s with
    | String "-" rest => (true, rest)
    | String "+" rest => (false, rest)
    | _ => (false, s)
    end in
  match Str.read_digits None body with
  | Some m => Int (if negative then - m else m)
  | None => NaN
  end.

(** ** The library *)

(** *** [ipv4DotNotationToNumber] (ip.js, lines 55-79) *)

(** The loop [for (i = 0; i < 4; i += 1)], with [steps] turns left. *)
Fixpoint ipv4DotNotationToNumber_loop (ipv4DotNotation : string)
    (decimals : list string) (steps i : nat) (ipv4Numeric : number)
    : result number :=
  match steps with
  | O => Ok ipv4Numeric
  | S steps' =>
      let decimal := parseInt (Str.index decimals i) in
      if negb (Num.eq decimal decimal)
         || Num.lt decimal (Int 0) || Num.gt decimal (Int 255)
      then Throw (Error (VStr ipv4DotNotation))
      else ipv4DotNotationToNumber_loop ipv4DotNotation decimals steps' (S i)
             (Num.add (Num.mul ipv4Numeric (Int 256)) decimal)
  end.

Definition ipv4DotNotationToNumber (ipv4DotNotation : value) : result number :=
  match ipv4DotNotation with
  | VStr s => ipv4DotNotationToNumber_loop s (Str.split_dot s) 4 0 (Int 0)
  | other => Throw (TypeError (typeof other))
  end.

(** *** [ipv4NumberToDotNotation] (ip.js, lines 88-107) *)

(** The loop [while ((i -= 1) > 0)].  The accumulator [ipv4DotNotation]
    starts as the number [ipv4Numeric % 256], which the first concatenation
    turns into a string; it is kept here as that string from the start. *)
Fixpoint ipv4NumberToDotNotation_loop (i : nat) (ipv4Numeric : number)
    (ipv4DotNotation : string) : string :=
  match i with
  | S (S _ as i') =>
      let ipv4Numeric := Num.floor_div256 ipv4Numeric in
      ipv4NumberToDotNotation_loop i' ipv4Numeric
        (Num.toString (Num.rem256 ipv4Numeric) ++ "." ++ ipv4DotNotation)
  | _ => ipv4DotNotation
  end.

Definition ipv4NumberToDotNotation (ipv4Numeric : value) : result string :=
  match ipv4Numeric with
  | VNum n =>
      if Num.lt n (Int 0) || Num.gt n (Int 4294967295)
      then Throw (Error (VNum n))
      else Ok (ipv4NumberToDotNotation_loop 4 n (Num.toString (Num.rem256 n)))
  | other => Throw (TypeError (typeof other))
  end.

(** *** [ip] (ip.js, lines 115-139) *)

Record Address : Type := {
  numeric : number;
  notation : string
}.

Definition valueOf (a : Address) : number := numeric a.
Definition toString (a : Address) : string := notation a.

Definition ip (address : value) : result Address :=
  match address with
  | VStr s =>
      let* numeric := ipv4DotNotationToNumber address in
      Ok {| numeric := numeric; notation := s |}
  | VNum n =>
      let* notation := ipv4NumberToDotNotation address in
      Ok {| numeric := n; notation := notation |}
  | other => Throw (TypeError (typeof other))
  end.

(** *** [netmaskToPrefixSize] (ip.js, lines 147-176) *)

(** The result is a number or [null], here [None]. *)
Definition netmaskToPrefixSize (netmask : value) : result (option number) :=
  match netmask with
  | VStr s =>
      if negb (Str.indexOf "." s =? -1)
      then
        let* address := ip netmask in
        let netmask := Num.toString2 (valueOf address) in
        let lastIndexOfOne := Str.lastIndexOf "1" netmask in
        let firstIndexOfZero := Str.indexOf "0" netmask in
        Ok (if negb (lastIndexOfOne =? -1) && negb (firstIndexOfZero =? -1)
               && (lastIndexOfOne <? firstIndexOfZero)
            then Some (Int firstIndexOfZero)
            else None)
      else
        let netmask := parseInt netmask in
        Ok (if Num.eq netmask netmask
               && Num.ge netmask (Int 0) && Num.le netmask (Int 32)
            then Some netmask
            else None)
  | VNum n =>
      Ok (if Num.eq n n && Num.ge n (Int 0) && Num.le n (Int 32)
          then Some n
          else None)
  | _ => Ok None
  end.

(** *** [subnet] (ip.js, lines 185-246) *)

(** ToNumber and ToString of a prefix size: [null] counts as 0 and prints as
    ["null"]. *)
Definition prefixToNumber (prefixSize : option number) : number :=
  match prefixSize with
  | Some n => n
  | None => Int 0
  end.

Definition prefixToString (prefixSize : option number) : string :=
  match prefixSize with
  | Some n => Num.toString n
  | None => "null"
  end.

(** [Math.pow(2, bits)].  [bits] is [32 - prefixSize], an integer between 0
    and 32 (see [netmaskToPrefixSize_range]); a negative exponent, whose
    power is a fraction, does not occur. *)
Definition pow2 (bits : number) : number :=
  match bits with
  | Int b => Int (2 ^ b)
  | NaN => NaN
  | Infinity false => Infinity false
  | Infinity true => Int 0
  end.

(** The object [subnet] returns, together with the variables its [contains]
    closes over; a field left [undefined] is [None]. *)
Record Subnet : Type := {
  size : number;
  network : option string;
  first : string;
  last : string;
  broadcast : option string;
  cidr : string;
  ipNumeric : number;
  networkNumeric : option number;
  firstNumeric : number;
  broadcastNumeric : option number;
  lastNumeric : number
}.

Definition subnet (ipNumeric : number) (netmask : value) : result Subnet :=
  let* prefixSize := netmaskToPrefixSize netmask in
  let bits := Num.sub (Int 32) (prefixToNumber prefixSize) in
  let maskedAddress :=
    Num.ushr
      (Num.land ipNumeric (Num.ushr (Num.shl (Int 4294967295) bits) (Int 0)))
      (Int 0) in
  let size := pow2 bits in
  let* dotted := ipv4NumberToDotNotation (VNum ipNumeric) in
  let cidr := dotted ++ "/" ++ prefixToString prefixSize in
  if Num.lt (prefixToNumber prefixSize) (Int 31)
  then
    let firstNumeric := Num.add maskedAddress (Int 1) in
    let lastNumeric := Num.sub (Num.add maskedAddress size) (Int 2) in
    let broadcastNumeric := Num.sub (Num.add maskedAddress size) (Int 1) in
    let networkNumeric := maskedAddress in
    let* first := ipv4NumberToDotNotation (VNum firstNumeric) in
    let* last := ipv4NumberToDotNotation (VNum lastNumeric) in
    let* network := ipv4NumberToDotNotation (VNum networkNumeric) in
    let* broadcast := ipv4NumberToDotNotation (VNum broadcastNumeric) in
    Ok {| size := size; network := Some network; first := first;
          last := last; broadcast := Some broadcast; cidr := cidr;
          ipNumeric := ipNumeric; networkNumeric := Some networkNumeric;
          firstNumeric := firstNumeric;
          broadcastNumeric := Some broadcastNumeric;
          lastNumeric := lastNumeric |}
  else
    let firstNumeric := ipNumeric in
    let lastNumeric := Num.sub (Num.add maskedAddress size) (Int 1) in
    let* first := ipv4NumberToDotNotation (VNum firstNumeric) in
    let* last := ipv4NumberToDotNotation (VNum lastNumeric) in
    Ok {| size := size; network := None; first := first;
          last := last; broadcast := None; cidr := cidr;
          ipNumeric := ipNumeric; networkNumeric := None;
          firstNumeric := firstNumeric;
          broadcastNumeric := None;
          lastNumeric := lastNumeric |}.

(** [a || b] where [a] may be [undefined]: [b] unless [a] is truthy, and
    the numbers 0 and [NaN] are not. *)
Definition truthy (n : number) : bool :=
  match n with
  | Int z => negb (z =? 0)
  | NaN => false
  | Infinity _ => true
  end.

Definition or_else (a : option number) (b : number) : number :=
  match a with
  | Some n => if truthy n then n else b
  | None => b
  end.

(** [contains] (lines 214-218).  The comparisons read the address object
    through its [valueOf]. *)
Definition contains (s : Subnet) (address : value) : result bool :=
  let* address := ip address in
  Ok (Num.ge (valueOf address) (or_else (networkNumeric s) (firstNumeric s))
      && Num.le (valueOf address) (or_else (broadcastNumeric s) (lastNumeric s))).

(** The exported constructor (lines 253-259) is [ip] with a [mask] method
    added to the address. *)
Definition mask (address : Address) (netmask : value) : result Subnet :=
  subnet (valueOf address) netmask.

(** The [valueOf] and [toString] of the object [subnet] returns (lines
    201-207): the address as it was given and the CIDR string. *)
Definition subnet_valueOf (s : Subnet) : number := ipNumeric s.
Definition subnet_toString (s : Subnet) : string := cidr s.

(** ** The earlier revision of the converters (ip.js, lines 288-338)

    The file carries an earlier revision of the library after the current
    one.  Its two converters are embedded here; they throw errors with fixed
    messages, kept as the three constructors of [Legacy.exn].  Its [netmask]
    takes [parseInt(prefix, 10)] without any test, so that [Math.pow(2, 32 -
    prefix)] may be a fraction: it is not embedded. *)

Module Legacy.

Inductive exn : Type :=
| TypeError
| MalformedAddress
| InvalidAddress.

Inductive outcome (A : Type) : Type :=
| Ok (a : A)
| Throw (e : exn).
Arguments Ok {A} a.
Arguments Throw {A} e.

(** The loop [for (i = 0; i < 4; i += 1)] of lines 304-311. *)
Fixpoint ipv4DotNotationToNumber_loop (decimals : list string)
    (steps i : nat) (result : number) : outcome number :=
  match steps with
  | O => Ok result
  | S steps' =>
      let decimal := parseInt (Str.index decimals i) in
      if negb (Num.eq decimal decimal)
         || Num.lt decimal (Int 0) || Num.gt decimal (Int 255)
      then Throw InvalidAddress
      else ipv4DotNotationToNumber_loop decimals steps' (S i)
             (Num.add (Num.mul result (Int 256)) decimal)
  end.

Definition ipv4DotNotationToNumber (dotNotation : value) : outcome number :=
  match dotNotation with
  | VStr s =>
      if Str.indexOf "." s <? 0
      then Throw MalformedAddress
      else ipv4DotNotationToNumber_loop (Str.split_dot s) 4 0 (Int 0)
  | _ => Throw TypeError
  end.

(** The loop [while ((i -= 1) >= 0)] of lines 333-336: the test holds as
    long as [i] was positive before it was decremented. *)
Fixpoint ipv4NumberToDotNotation_loop (i : nat) (number : number)
    (result : string) : string :=
  match i with
  | S i' =>
      let number := Num.floor_div256 number in
      ipv4NumberToDotNotation_loop i' number
        (Num.toString (Num.rem256 number) ++ "." ++ result)
  | O => result
  end.

Definition ipv4NumberToDotNotation (number : value) : outcome string :=
  match number with
  | VNum n =>
      if Num.lt n (Int 0) || Num.gt n (Int 4294967295)
      then Throw InvalidAddress
      else Ok (ipv4NumberToDotNotation_loop 3 n (Num.toString (Num.rem256 n)))
  | _ => Throw TypeError
  end.

End Legacy.

(** What an outcome of the current revision reads as in the earlier one:
    the same value, or the error of the same kind. *)
Definition legacy_outcome {A : Type} (r : result A) : Legacy.outcome A :=
  match r with
  | Ok a => Legacy.Ok a
  | Throw (TypeError _) => Legacy.Throw Legacy.TypeError
  | Throw (Error _) => Legacy.Throw Legacy.InvalidAddress
  end.

(** ** Auxiliary definitions for the statements *)

(** The decimal rendering of an integer and the dotted form of four of them. *)
Definition str (z : Z) : string := Num.toString (Int z).

Definition dotted (a b c d : Z) : string :=
  str a ++ "." ++ str b ++ "." ++ str c ++ "." ++ str d.

(** The notation of a valid address: its four octets, most significant
    first. *)
Definition notation_of (n : Z) : string :=
  dotted (Z.rem (n / 256 / 256 / 256) 256) (Z.rem (n / 256 / 256) 256)
         (Z.rem (n / 256) 256) (Z.rem n 256).

(** The address [A] with its [32 - P] low bits cleared. *)
Definition network_of (A P : Z) : Z := A - A mod 2 ^ (32 - P).

(** The big-endian base-256 value of four octets. *)
Definition base256 (a b c d : Z) : Z := ((a * 256 + b) * 256 + c) * 256 + d.

Fixpoint no_dot (s : string) : bool :=
  match s with
  | EmptyString => true
  | String c rest => negb (Ascii.eqb c ".") && no_dot rest
  end.

(** What [ipv4DotNotationToNumber] asks of one piece: it reads as an integer
    between 0 and 255. *)
Definition reads_octet (piece : value) (d : Z) : Prop :=
  parseInt piece = Int d /\ 0 <= d <= 255.

(** A 32-bit mask made of [p] one-bits followed by [32 - p] zero-bits. *)
Definition mask_of_prefix (p : Z) : Z := 2 ^ 32 - 2 ^ (32 - p).

Definition contiguous_mask (m : Z) : bool :=
  existsb (fun p => m =? mask_of_prefix (Z.of_nat p)) (seq 0 33).

(** One octet survives printing and reading back, and prints without dot. *)
Definition octet_roundtrip (k : Z) : bool :=
  no_dot (str k)
  && match parseInt (VStr (str k)) with
     | Int m => m =? k
     | _ => false
     end.

(** [k] times the character [c]. *)
Fixpoint replicate (c : ascii) (k : nat) : string :=
  match k with
  | O => EmptyString
  | S k' => String c (replicate c k')
  end.

(** Made of the digits 0 and 1 only. *)
Fixpoint is_binary (b : string) : bool :=
  match b with
  | EmptyString => true
  | String c rest => (Ascii.eqb c "0" || Ascii.eqb c "1") && is_binary rest
  end.

(** The value of a string of binary digits read after the digits worth
    [acc]. *)
Fixpoint binary_value (acc : Z) (b : string) : Z :=
  match b with
  | EmptyString => acc
  | String c rest =>
      binary_value (2 * acc + (if Ascii.eqb c "1" then 1 else 0)) rest
  end.

(** The test [netmaskToPrefixSize] makes on the binary rendering of a dotted
    mask. *)
Definition prefix_of_rendering (b : string) : option number :=
  let lastIndexOfOne := Str.lastIndexOf "1" b in
  let firstIndexOfZero := Str.indexOf "0" b in
  if negb (lastIndexOfOne =? -1) && negb (firstIndexOfZero =? -1)
     && (lastIndexOfOne <? firstIndexOfZero)
  then Some (Int firstIndexOfZero)
  else None.

(** All the pairs of a run of [k] ones and a run of [j] zeros, both at least
    1 long and together at most 32. *)
Definition runs : list (nat * nat) :=
  flat_map (fun k => map (fun j => (k, j)) (seq 1 (32 - k))) (seq 1 31).

(** The value of [k] ones followed by [j] zeros. *)
Definition run_value (k j : Z) : Z := (2 ^ k - 1) * 2 ^ j.

(** One run of each kind, as [runs] lists them, passes the test with the
    length of the run of ones. *)
Definition run_accepted (kj : nat * nat) : bool :=
  let '(k, j) := kj in
  match prefix_of_rendering
          (Num.toString2 (Int (run_value (Z.of_nat k) (Z.of_nat j)))) with
  | Some (Int m) => m =? Z.of_nat k
  | _ => false
  end.

(** ** Strings: splitting *)

Section Splitting.

Lemma split_dot_no_dot (s : string) :
  no_dot s = true -> Str.split_dot s = [s].
Proof.
  induction s as [|c rest IH]; simpl; intros H; [reflexivity|].
  apply andb_prop in H as [Hc Hrest].
  apply negb_true_iff in Hc. rewrite Hc, (IH Hrest). reflexivity.
Qed.

Lemma split_dot_app (s t : string) :
  no_dot s = true ->
  Str.split_dot (s ++ "." ++ t) = s :: Str.split_dot t.
Proof.
  induction s as [|c rest IH]; simpl; intros H; [reflexivity|].
  apply andb_prop in H as [Hc Hrest].
  apply negb_true_iff in Hc. rewrite Hc.
  change (rest ++ String "." t)%string with (rest ++ "." ++ t)%string.
  rewrite (IH Hrest). reflexivity.
Qed.

Lemma split_dot_dotted (a b c d : Z) :
  no_dot (str a) = true -> no_dot (str b) = true ->
  no_dot (str c) = true -> no_dot (str d) = true ->
  Str.split_dot (dotted a b c d) = [str a; str b; str c; str d].
Proof.
  intros Ha Hb Hc Hd. unfold dotted.
  rewrite !split_dot_app by assumption.
  rewrite split_dot_no_dot by assumption. reflexivity.
Qed.

End Splitting.

(** ** Octets *)

Lemma octets_roundtrip :
  forallb octet_roundtrip (map Z.of_nat (seq 0 256)) = true.
Proof. vm_compute. reflexivity. Qed.

Lemma octet_roundtrip_ok (k : Z) : 0 <= k <= 255 -> octet_roundtrip k = true.
Proof.
  intros Hk.
  pose proof octets_roundtrip as H.
  rewrite forallb_forall in H. apply H.
  apply in_map_iff. exists (Z.to_nat k). split; [lia|].
  apply in_seq. lia.
Qed.

Lemma octet_no_dot (k : Z) : 0 <= k <= 255 -> no_dot (str k) = true.
Proof.
  intros Hk. apply octet_roundtrip_ok in Hk.
  unfold octet_roundtrip in Hk. apply andb_prop in Hk. tauto.
Qed.

Lemma octet_parseInt (k : Z) :
  0 <= k <= 255 -> parseInt (VStr (str k)) = Int k.
Proof.
  intros Hk. apply octet_roundtrip_ok in Hk.
  unfold octet_roundtrip in Hk. apply andb_prop in Hk as [_ Hk].
  destruct (parseInt (VStr (str k))); try discriminate.
  apply Z.eqb_eq in Hk. congruence.
Qed.

(** ** Parsing dot-decimal notation *)

Lemma octet_range_cases (d : Z) :
  (0 <= d <= 255 /\ (0 <=? d) && (d <=? 255) = true) \/
  (~ 0 <= d <= 255 /\ (0 <=? d) && (d <=? 255) = false).
Proof.
  destruct (Z.leb_spec 0 d), (Z.leb_spec d 255); cbn; (left + right); lia.
Qed.

Ltac octet_range d H :=
  let E := fresh "E" in
  destruct (octet_range_cases d) as [[H E]|[H E]];
  cbv beta iota; rewrite E; cbv beta iota.

Section Parsing.

Variable s : string.

(** One turn of the loop: the piece must read as an integer in [0, 255]. *)
Lemma ipv4DotNotationToNumber_loop_S (decimals : list string)
    (steps i : nat) (acc : number) :
  ipv4DotNotationToNumber_loop s decimals (S steps) i acc =
  match parseInt (Str.index decimals i) with
  | Int d =>
      if (0 <=? d) && (d <=? 255)
      then ipv4DotNotationToNumber_loop s decimals steps (S i)
             (Num.add (Num.mul acc (Int 256)) (Int d))
      else Throw (Error (VStr s))
  | _ => Throw (Error (VStr s))
  end.
Proof.
  cbn [ipv4DotNotationToNumber_loop].
  destruct (parseInt (Str.index decimals i)) as [d| |[|]]; cbn; try reflexivity.
  rewrite Z.eqb_refl. cbn.
  destruct (Z.ltb_spec d 0), (Z.ltb_spec 255 d),
    (Z.leb_spec 0 d), (Z.leb_spec d 255); cbn; try reflexivity; lia.
Qed.

(** The string is accepted exactly when each of its first four pieces
    reads as an octet; the pieces after the fourth are not looked at. *)
Lemma ipv4DotNotationToNumber_ok_iff (n : number) :
  ipv4DotNotationToNumber (VStr s) = Ok n <->
  exists d0 d1 d2 d3,
    reads_octet (Str.index (Str.split_dot s) 0) d0 /\
    reads_octet (Str.index (Str.split_dot s) 1) d1 /\
    reads_octet (Str.index (Str.split_dot s) 2) d2 /\
    reads_octet (Str.index (Str.split_dot s) 3) d3 /\
    n = Int (base256 d0 d1 d2 d3).
Proof.
  unfold ipv4DotNotationToNumber, reads_octet.
  generalize (Str.split_dot s); intros l.
  split.
  - rewrite ipv4DotNotationToNumber_loop_S.
    destruct (parseInt (Str.index l 0)) as [d0| |?]; try solve [intros [=]].
    octet_range d0 H0; try solve [intros [=]].
    rewrite ipv4DotNotationToNumber_loop_S.
    destruct (parseInt (Str.index l 1)) as [d1| |?]; try solve [intros [=]].
    octet_range d1 H1; try solve [intros [=]].
    rewrite ipv4DotNotationToNumber_loop_S.
    destruct (parseInt (Str.index l 2)) as [d2| |?]; try solve [intros [=]].
    octet_range d2 H2; try solve [intros [=]].
    rewrite ipv4DotNotationToNumber_loop_S.
    destruct (parseInt (Str.index l 3)) as [d3| |?]; try solve [intros [=]].
    octet_range d3 H3; try solve [intros [=]].
    cbn. intros [= <-]. exists d0, d1, d2, d3. unfold base256.
    repeat split; try lia.
  - intros (d0 & d1 & d2 & d3 & [E0 H0] & [E1 H1] & [E2 H2] & [E3 H3] & ->).
    rewrite ipv4DotNotationToNumber_loop_S, E0. octet_range d0 H0'; [|lia].
    rewrite ipv4DotNotationToNumber_loop_S, E1. octet_range d1 H1'; [|lia].
    rewrite ipv4DotNotationToNumber_loop_S, E2. octet_range d2 H2'; [|lia].
    rewrite ipv4DotNotationToNumber_loop_S, E3. octet_range d3 H3'; [|lia].
    reflexivity.
Qed.

(** Any other string is refused with the invalid-address error. *)
Lemma ipv4DotNotationToNumber_cases :
  (exists n, ipv4DotNotationToNumber (VStr s) = Ok n) \/
  ipv4DotNotationToNumber (VStr s) = Throw (Error (VStr s)).
Proof.
  unfold ipv4DotNotationToNumber.
  do 4 (rewrite ipv4DotNotationToNumber_loop_S;
        match goal with
        | |- context [match parseInt ?v with _ => _ end] =>
            let d := fresh "d" in
            let H := fresh "H" in
            destruct (parseInt v) as [d| |?]; [|now right|now right];
            octet_range d H; [|now right]
        end).
  left. eexists. reflexivity.
Qed.

End Parsing.

(** ** Formatting a number *)

(** A number is refused with [TypeError] by neither range test nor loop:
    the test on its type is the only one that throws it. *)
Lemma ipv4NumberToDotNotation_number (n : number) :
  ipv4NumberToDotNotation (VNum n) = Throw (Error (VNum n)) \/
  exists s, ipv4NumberToDotNotation (VNum n) = Ok s.
Proof.
  unfold ipv4NumberToDotNotation.
  destruct (Num.lt n (Int 0) || Num.gt n (Int 4294967295)); eauto.
Qed.

(** On an address in range the four octets are printed, most significant
    first. *)
Lemma ipv4NumberToDotNotation_valid (n : Z) :
  0 <= n <= 4294967295 ->
  ipv4NumberToDotNotation (VNum (Int n)) = Ok (notation_of n).
Proof.
  intros Hn. unfold ipv4NumberToDotNotation, Num.gt, Num.lt.
  destruct (Z.ltb_spec n 0); [lia|].
  destruct (Z.ltb_spec 4294967295 n); [lia|].
  reflexivity.
Qed.

Lemma ipv4NumberToDotNotation_out_of_range (n : Z) :
  n < 0 \/ 4294967295 < n ->
  ipv4NumberToDotNotation (VNum (Int n)) = Throw (Error (VNum (Int n))).
Proof.
  intros Hn. unfold ipv4NumberToDotNotation, Num.gt, Num.lt.
  destruct (Z.ltb_spec n 0), (Z.ltb_spec 4294967295 n);
    try reflexivity; lia.
Qed.

Lemma octets_of_address (n : Z) :
  0 <= n <= 4294967295 ->
  0 <= Z.rem (n / 256 / 256 / 256) 256 <= 255 /\
  0 <= Z.rem (n / 256 / 256) 256 <= 255 /\
  0 <= Z.rem (n / 256) 256 <= 255 /\
  0 <= Z.rem n 256 <= 255 /\
  base256 (Z.rem (n / 256 / 256 / 256) 256) (Z.rem (n / 256 / 256) 256)
          (Z.rem (n / 256) 256) (Z.rem n 256) = n.
Proof.
  intros Hn. unfold base256.
  rewrite !Z.rem_mod_nonneg by (try apply Z.div_pos; try apply Z.div_pos;
                                try apply Z.div_pos; lia).
  assert (n / 256 / 256 / 256 < 256) by
    (repeat apply Z.div_lt_upper_bound; lia).
  rewrite (Z.mod_small (n / 256 / 256 / 256)) by
    (split; [repeat apply Z.div_pos; lia | assumption]).
  pose proof (Z.div_mod n 256).
  pose proof (Z.div_mod (n / 256) 256).
  pose proof (Z.div_mod (n / 256 / 256) 256).
  pose proof (Z.mod_pos_bound n 256).
  pose proof (Z.mod_pos_bound (n / 256) 256).
  pose proof (Z.mod_pos_bound (n / 256 / 256) 256).
  assert (0 <= n / 256 / 256 / 256) by (repeat apply Z.div_pos; lia).
  lia.
Qed.

(** Reading back a dotted string of four octets. *)
Lemma ipv4DotNotationToNumber_dotted (a b c d : Z) :
  0 <= a <= 255 -> 0 <= b <= 255 -> 0 <= c <= 255 -> 0 <= d <= 255 ->
  ipv4DotNotationToNumber (VStr (dotted a b c d)) = Ok (Int (base256 a b c d)).
Proof.
  intros Ha Hb Hc Hd.
  apply ipv4DotNotationToNumber_ok_iff.
  exists a, b, c, d.
  rewrite split_dot_dotted by (apply octet_no_dot; assumption).
  unfold reads_octet, Str.index. cbn [nth_error].
  rewrite !octet_parseInt by assumption. tauto.
Qed.

Lemma notation_of_base256 (a b c d : Z) :
  0 <= a <= 255 -> 0 <= b <= 255 -> 0 <= c <= 255 -> 0 <= d <= 255 ->
  notation_of (base256 a b c d) = dotted a b c d.
Proof.
  intros Ha Hb Hc Hd. unfold notation_of, base256.
  assert (forall x y, 0 <= x -> 0 <= y <= 255 ->
                      (x * 256 + y) / 256 = x /\ Z.rem (x * 256 + y) 256 = y)
    as Hstep.
  { intros x y Hx Hy. rewrite Z.rem_mod_nonneg by lia. split.
    - rewrite Z.div_add_l, Z.div_small by lia. lia.
    - rewrite (Z.add_comm (x * 256)), Z.mod_add, Z.mod_small by lia.
      reflexivity. }
  destruct (Hstep ((a * 256 + b) * 256 + c) d ltac:(lia) Hd) as [-> ->].
  destruct (Hstep (a * 256 + b) c ltac:(lia) Hc) as [-> ->].
  destruct (Hstep a b ltac:(lia) Hb) as [-> ->].
  rewrite Z.rem_small by lia. reflexivity.
Qed.

(** X5. Parsing then formatting gives the canonical notation: the four
    octets as they were read, printed without leading zeros. *)
Lemma parse_then_format_canonical (s : string) (n : number) :
  ipv4DotNotationToNumber (VStr s) = Ok n ->
  exists d0 d1 d2 d3,
    reads_octet (Str.index (Str.split_dot s) 0) d0 /\
    reads_octet (Str.index (Str.split_dot s) 1) d1 /\
    reads_octet (Str.index (Str.split_dot s) 2) d2 /\
    reads_octet (Str.index (Str.split_dot s) 3) d3 /\
    ipv4NumberToDotNotation (VNum n) = Ok (dotted d0 d1 d2 d3).
Proof.
  intros H. apply ipv4DotNotationToNumber_ok_iff in H
    as (d0 & d1 & d2 & d3 & H0 & H1 & H2 & H3 & ->).
  exists d0, d1, d2, d3. repeat (split; [assumption|]).
  destruct H0 as [_ H0], H1 as [_ H1], H2 as [_ H2], H3 as [_ H3].
  rewrite ipv4NumberToDotNotation_valid by (unfold base256; lia).
  now rewrite notation_of_base256.
Qed.

(** ** Addresses *)

(** C8. Round trip: for every integer [n] in [0, 4294967295], formatting [n]
    succeeds and parsing the string it gives yields [n] back. *)
Theorem format_then_parse_roundtrip (n : Z) :
  0 <= n <= 4294967295 ->
  exists s,
    ipv4NumberToDotNotation (VNum (Int n)) = Ok s /\
    ipv4DotNotationToNumber (VStr s) = Ok (Int n).
Proof.
  intros Hn.
  destruct (octets_of_address n Hn) as (H3 & H2 & H1 & H0 & Hsum).
  eexists. split; [apply ipv4NumberToDotNotation_valid; assumption|].
  unfold notation_of.
  rewrite ipv4DotNotationToNumber_dotted by assumption.
  rewrite Hsum. reflexivity.
Qed.

Lemma format_then_parse_roundtrip_witness :
  0 <= 2130706433 <= 4294967295 /\
  exists s,
    ipv4NumberToDotNotation (VNum (Int 2130706433)) = Ok s /\
    ipv4DotNotationToNumber (VStr s) = Ok (Int 2130706433).
Proof.
  split; [lia|]. apply (format_then_parse_roundtrip 2130706433). lia.
Defined.

(** C10. An address built from an accepted string keeps that very string as
    its notation: [toString] returns the caller's text, not a re-formatting
    of the number. *)
Theorem ip_string_keeps_notation (s : string) (n : number) :
  ipv4DotNotationToNumber (VStr s) = Ok n ->
  exists a, ip (VStr s) = Ok a /\ toString a = s /\ valueOf a = n.
Proof.
  intros H. unfold ip. rewrite H. cbn [bind].
  eexists. split; [reflexivity|]. split; reflexivity.
Qed.

Lemma ip_string_keeps_notation_witness :
  ipv4DotNotationToNumber (VStr "127.00.0.1") = Ok (Int 2130706433) /\
  exists a,
    ip (VStr "127.00.0.1") = Ok a /\
    toString a = "127.00.0.1" /\ valueOf a = Int 2130706433.
Proof.
  split; [reflexivity|].
  apply (ip_string_keeps_notation "127.00.0.1" (Int 2130706433)).
  reflexivity.
Defined.

(** X3. A string with fewer than four pieces is refused with the
    invalid-address error: the missing piece is [undefined], which reads as
    [NaN]. *)
Lemma fewer_than_four_segments_rejected (s : string) :
  (List.length (Str.split_dot s) < 4)%nat ->
  ipv4DotNotationToNumber (VStr s) = Throw (Error (VStr s)).
Proof.
  intros Hlen.
  destruct (ipv4DotNotationToNumber_cases s) as [[n Hn]|H]; [|exact H].
  apply ipv4DotNotationToNumber_ok_iff in Hn
    as (d0 & d1 & d2 & d3 & _ & _ & _ & [H3 _] & _).
  unfold Str.index in H3.
  assert (nth_error (Str.split_dot s) 3 = None) as E
    by (apply nth_error_None; lia).
  rewrite E in H3. vm_compute in H3. discriminate.
Qed.

(** The pieces after the fourth are never read: a string is accepted as
    soon as its first four pieces read as octets. *)
Lemma first_four_segments_decide (s : string) (d0 d1 d2 d3 : Z) :
  reads_octet (Str.index (Str.split_dot s) 0) d0 ->
  reads_octet (Str.index (Str.split_dot s) 1) d1 ->
  reads_octet (Str.index (Str.split_dot s) 2) d2 ->
  reads_octet (Str.index (Str.split_dot s) 3) d3 ->
  ipv4DotNotationToNumber (VStr s) = Ok (Int (base256 d0 d1 d2 d3)).
Proof.
  intros H0 H1 H2 H3.
  apply ipv4DotNotationToNumber_ok_iff. exists d0, d1, d2, d3. tauto.
Qed.

(** C6. The string 1.2.3.4.5 splits into five pieces and is parsed all the
    same, as 1.2.3.4; the address built from it keeps the five pieces as
    its notation. *)
Theorem five_segments_accepted :
  Str.split_dot "1.2.3.4.5" = ["1"; "2"; "3"; "4"; "5"]%string /\
  ipv4DotNotationToNumber (VStr "1.2.3.4.5") = Ok (Int 16909060) /\
  ipv4DotNotationToNumber (VStr "1.2.3.4") = Ok (Int 16909060) /\
  ip (VStr "1.2.3.4.5") =
    Ok {| numeric := Int 16909060; notation := "1.2.3.4.5" |}.
Proof. repeat split. Qed.

(** The notation kept for 127.00.0.1 is not the one formatting its number
    would give. *)
Lemma noncanonical_notation_kept :
  exists a,
    ip (VStr "127.00.0.1") = Ok a /\
    toString a = "127.00.0.1" /\
    ipv4NumberToDotNotation (VNum (valueOf a)) = Ok "127.0.0.1".
Proof. eexists. repeat split. Qed.

(** [NaN] passes both range comparisons and is formatted; an infinity fails
    one of them. *)
Lemma ipv4NumberToDotNotation_NaN :
  ipv4NumberToDotNotation (VNum NaN) = Ok "NaN.NaN.NaN.NaN".
Proof. reflexivity. Qed.


(** C7, as stated, fails: [NaN] is a number that is not integer-valued, and
    it is not refused with [TypeError]. *)
Lemma not_a_number_formatted :
  ~ (forall n : number,
        (forall z, n <> Int z) ->
        exists t, ipv4NumberToDotNotation (VNum n) = Throw (TypeError t)).
Proof.
  intros H. destruct (H NaN) as [t Ht]; [discriminate|].
  rewrite ipv4NumberToDotNotation_NaN in Ht. discriminate.
Qed.

(** C7, amended. [TypeError] is thrown exactly for the arguments whose type
    is not number: no number, integer-valued or not, is refused with it. *)
Theorem type_error_iff_not_number (v : value) :
  (exists t, ipv4NumberToDotNotation v = Throw (TypeError t)) <->
  typeof v <> TNumber.
Proof.
  split.
  - intros [t Ht]. destruct v; try discriminate.
    destruct (ipv4NumberToDotNotation_number n) as [E|[s E]];
      rewrite E in Ht; discriminate.
  - intros Hty. destruct v; cbn; eauto. now destruct Hty.
Qed.

(** ** Netmasks *)

Section IndexBounds.

Lemma length_app (s t : string) :
  String.length (s ++ t) = (String.length s + String.length t)%nat.
Proof. induction s as [|c s IH]; cbn; [reflexivity | now rewrite IH]. Qed.

Lemma lastIndexOf_lower (c : ascii) (t : string) :
  -1 <= Str.lastIndexOf c t.
Proof.
  induction t as [|d t IH]; cbn [Str.lastIndexOf]; [lia|].
  destruct (Z.eqb_spec (Str.lastIndexOf c t) (-1)); [|lia].
  destruct (Ascii.eqb d c); lia.
Qed.

(** A positive integer below [2 ^ k] prints in at most [k] binary digits. *)
Lemma length_bits_of_pos (p : positive) :
  forall k : nat, Zpos p < 2 ^ Z.of_nat k ->
  (String.length (Num.bits_of_pos p) <= k)%nat.
Proof.
  induction p as [q IH|q IH|]; intros k Hk; cbn [Num.bits_of_pos].
  - destruct k as [|k]; [cbn in Hk; lia|].
    rewrite length_app. cbn [String.length].
    rewrite Nat2Z.inj_succ, Z.pow_succ_r in Hk by lia.
    specialize (IH k). lia.
  - destruct k as [|k]; [cbn in Hk; lia|].
    rewrite length_app. cbn [String.length].
    rewrite Nat2Z.inj_succ, Z.pow_succ_r in Hk by lia.
    specialize (IH k). lia.
  - destruct k as [|k]; [cbn in Hk; lia|]. cbn. lia.
Qed.

End IndexBounds.

(** A parsed address is an integer of 32 bits. *)
Lemma ipv4DotNotationToNumber_range (s : string) (n : number) :
  ipv4DotNotationToNumber (VStr s) = Ok n ->
  exists v, n = Int v /\ 0 <= v <= 4294967295.
Proof.
  intros H. apply ipv4DotNotationToNumber_ok_iff in H
    as (d0 & d1 & d2 & d3 & [_ H0] & [_ H1] & [_ H2] & [_ H3] & ->).
  eexists. split; [reflexivity|]. unfold base256. lia.
Qed.

Section Rendering.

Lemma binary_value_app (acc : Z) (s t : string) :
  binary_value acc (s ++ t) = binary_value (binary_value acc s) t.
Proof. revert acc. induction s as [|c s IH]; intros acc; cbn; auto. Qed.

Lemma bits_of_pos_binary (p : positive) :
  is_binary (Num.bits_of_pos p) = true.
Proof.
  assert (forall s t, is_binary s = true -> is_binary t = true ->
                      is_binary (s ++ t) = true) as Happ.
  { induction s as [|c s IH]; cbn; intros t Hs Ht; [assumption|].
    apply andb_prop in Hs as [Hc Hs]. rewrite Hc. cbn. auto. }
  induction p; cbn [Num.bits_of_pos]; auto.
Qed.

Lemma bits_of_pos_value (p : positive) :
  binary_value 0 (Num.bits_of_pos p) = Zpos p.
Proof.
  induction p as [q IH|q IH|]; cbn [Num.bits_of_pos];
    rewrite ?binary_value_app, ?IH; cbn [binary_value]; cbn; lia.
Qed.

Lemma binary_value_ones (acc : Z) (k : nat) :
  binary_value acc (replicate "1" k) =
  acc * 2 ^ Z.of_nat k + (2 ^ Z.of_nat k - 1).
Proof.
  revert acc. induction k as [|k IH]; intros acc.
  - cbn. lia.
  - cbn [replicate binary_value].
    change (if Ascii.eqb "1" "1" then 1 else 0) with 1. rewrite IH.
    rewrite Nat2Z.inj_succ, Z.pow_succ_r by lia. lia.
Qed.

Lemma binary_value_zeros (acc : Z) (j : nat) :
  binary_value acc (replicate "0" j) = acc * 2 ^ Z.of_nat j.
Proof.
  revert acc. induction j as [|j IH]; intros acc.
  - cbn. lia.
  - cbn [replicate binary_value].
    change (if Ascii.eqb "0" "1" then 1 else 0) with 0. rewrite IH.
    rewrite Nat2Z.inj_succ, Z.pow_succ_r by lia. lia.
Qed.

Lemma length_replicate (c : ascii) (k : nat) :
  String.length (replicate c k) = k.
Proof. induction k; cbn; auto. Qed.

(** Binary digits without a one are all zeros. *)
Lemma no_one_all_zeros (b : string) :
  is_binary b = true -> Str.lastIndexOf "1" b = -1 ->
  b = replicate "0" (String.length b).
Proof.
  induction b as [|c b IH]; cbn [is_binary Str.lastIndexOf]; intros Hb Hl;
    [reflexivity|].
  apply andb_prop in Hb as [Hc Hb].
  pose proof (lastIndexOf_lower "1" b).
  destruct (Z.eqb_spec (Str.lastIndexOf "1" b) (-1)) as [E|E]; [|lia].
  destruct (Ascii.eqb_spec c "1"); [discriminate|].
  destruct (Ascii.eqb_spec c "0") as [->|]; [|discriminate].
  cbn. now rewrite <- IH.
Qed.

(** The rendering passes the test only as a run of ones followed by a run
    of zeros, and the index of the first zero is the number of ones. *)
Lemma rendering_shape (b : string) :
  is_binary b = true ->
  Str.lastIndexOf "1" b <> -1 -> Str.indexOf "0" b <> -1 ->
  Str.lastIndexOf "1" b < Str.indexOf "0" b ->
  exists k j,
    b = (replicate "1" (S k) ++ replicate "0" (S j))%string /\
    Str.indexOf "0" b = Z.of_nat (S k).
Proof.
  induction b as [|c b IH]; cbn [is_binary Str.lastIndexOf Str.indexOf];
    intros Hb Hone Hzero Hlt; [contradiction|].
  apply andb_prop in Hb as [Hc Hb].
  pose proof (lastIndexOf_lower "1" b) as Hlow.
  destruct (Ascii.eqb_spec c "0") as [->|Hc0].
  - cbn in Hlt, Hone.
    destruct (Z.eqb_spec (Str.lastIndexOf "1" b) (-1)); lia.
  - destruct (Ascii.eqb_spec c "1") as [->|]; [|discriminate].
    destruct (Z.eqb_spec (Str.indexOf "0" b) (-1)) as [E0|E0];
      [contradiction|].
    destruct (Z.eqb_spec (Str.lastIndexOf "1" b) (-1)) as [E1|E1].
    + pose proof (no_one_all_zeros b Hb E1) as Hz.
      destruct b as [|d b]; [cbn in E0; contradiction|].
      exists O, (String.length b). split.
      * cbn [replicate String.append]. f_equal. exact Hz.
      * rewrite Hz. cbn. reflexivity.
    + destruct (IH Hb E1 E0 ltac:(lia)) as (k & j & Hshape & Hidx).
      exists (S k), j. split.
      * rewrite Hshape at 1. reflexivity.
      * rewrite Hidx. lia.
Qed.

End Rendering.

Section DottedNetmasks.

Lemma netmaskToPrefixSize_dotted (s : string) (v : Z) :
  Str.indexOf "." s <> -1 ->
  ipv4DotNotationToNumber (VStr s) = Ok (Int v) ->
  netmaskToPrefixSize (VStr s) =
  Ok (prefix_of_rendering (Num.toString2 (Int v))).
Proof.
  intros Hdot Hv. unfold netmaskToPrefixSize, ip.
  destruct (Z.eqb_spec (Str.indexOf "." s) (-1)); [contradiction|].
  rewrite Hv. reflexivity.
Qed.

Lemma prefix_of_rendering_sound (v : Z) (n : number) :
  0 <= v <= 4294967295 ->
  prefix_of_rendering (Num.toString2 (Int v)) = Some n ->
  exists k j,
    1 <= k /\ 1 <= j /\ k + j <= 32 /\ v = run_value k j /\ n = Int k.
Proof.
  intros Hv. unfold prefix_of_rendering.
  destruct v as [|p|p]; [discriminate| |lia].
  cbn [Num.toString2]. set (b := Num.bits_of_pos p).
  destruct (Z.eqb_spec (Str.lastIndexOf "1" b) (-1)); cbn [negb andb];
    [discriminate|].
  destruct (Z.eqb_spec (Str.indexOf "0" b) (-1)); cbn [negb andb];
    [discriminate|].
  destruct (Z.ltb_spec (Str.lastIndexOf "1" b) (Str.indexOf "0" b));
    [|discriminate].
  intros [= <-].
  destruct (rendering_shape b (bits_of_pos_binary p)) as (k & j & Hb & Hidx);
    try assumption.
  exists (Z.of_nat (S k)), (Z.of_nat (S j)).
  assert (String.length b <= 32)%nat as Hlen
    by (apply length_bits_of_pos; lia).
  rewrite Hb, length_app, !length_replicate in Hlen.
  pose proof (bits_of_pos_value p) as Hval. fold b in Hval.
  rewrite Hb, binary_value_app, binary_value_ones, binary_value_zeros in Hval.
  unfold run_value. rewrite Hidx.
  repeat split; try lia.
Qed.

Lemma runs_accepted : forallb run_accepted runs = true.
Proof. vm_compute. reflexivity. Qed.

Lemma prefix_of_rendering_complete (k j : Z) :
  1 <= k -> 1 <= j -> k + j <= 32 ->
  prefix_of_rendering (Num.toString2 (Int (run_value k j))) = Some (Int k).
Proof.
  intros Hk Hj Hkj.
  assert (In (Z.to_nat k, Z.to_nat j) runs) as Hin.
  { unfold runs. apply in_flat_map. exists (Z.to_nat k). split.
    - apply in_seq. lia.
    - apply in_map_iff. exists (Z.to_nat j). split; [reflexivity|].
      apply in_seq. lia. }
  pose proof runs_accepted as H. rewrite forallb_forall in H.
  specialize (H _ Hin). unfold run_accepted in H.
  rewrite !Z2Nat.id in H by lia.
  destruct (prefix_of_rendering (Num.toString2 (Int (run_value k j))))
    as [[m| |?]|]; try discriminate.
  apply Z.eqb_eq in H. now subst.
Qed.

(** The dotted masks that are given a prefix size are exactly those whose
    value is a run of [k] ones followed by a run of [j] zeros, [k] and [j] at
    least 1 and [k + j] at most 32; the prefix size is [k].  When [k + j] is
    less than 32 the mask starts with zero bits. *)
Lemma dotted_netmask_accepted_iff (s : string) (v : Z) (n : number) :
  Str.indexOf "." s <> -1 ->
  ipv4DotNotationToNumber (VStr s) = Ok (Int v) ->
  netmaskToPrefixSize (VStr s) = Ok (Some n) <->
  exists k j,
    1 <= k /\ 1 <= j /\ k + j <= 32 /\ v = run_value k j /\ n = Int k.
Proof.
  intros Hdot Hv.
  rewrite (netmaskToPrefixSize_dotted s v Hdot Hv).
  destruct (ipv4DotNotationToNumber_range s (Int v) Hv) as (v' & [= <-] & Hr).
  split.
  - intros [= H]. now apply prefix_of_rendering_sound.
  - intros (k & j & Hk & Hj & Hkj & -> & ->).
    now rewrite prefix_of_rendering_complete.
Qed.

(** X14. Among the masks whose first bit is set the test is the right one:
    such a mask is given the prefix size [k] exactly when it is [k] ones
    followed by zeros. *)
Lemma leading_one_netmask_accepted_iff (s : string) (v : Z) (n : number) :
  Str.indexOf "." s <> -1 ->
  ipv4DotNotationToNumber (VStr s) = Ok (Int v) ->
  2 ^ 31 <= v ->
  netmaskToPrefixSize (VStr s) = Ok (Some n) <->
  exists k, 1 <= k <= 31 /\ v = mask_of_prefix k /\ n = Int k.
Proof.
  intros Hdot Hv Htop.
  rewrite (dotted_netmask_accepted_iff s v n Hdot Hv).
  assert (forall k j, 1 <= k -> 1 <= j -> k + j <= 32 ->
                      run_value k j = 2 ^ (k + j) - 2 ^ j) as Hrun.
  { intros k j Hk Hj _. unfold run_value.
    rewrite Z.pow_add_r by lia. lia. }
  split.
  - intros (k & j & Hk & Hj & Hkj & -> & ->).
    rewrite Hrun in * by assumption.
    assert (k + j = 32) as E.
    { destruct (Z.eq_dec (k + j) 32); [assumption|].
      assert (2 ^ (k + j) <= 2 ^ 31) by (apply Z.pow_le_mono_r; lia).
      pose proof (Z.pow_pos_nonneg 2 j). lia. }
    exists k. unfold mask_of_prefix.
    replace (32 - k) with j by lia. rewrite E. repeat split; lia.
  - intros (k & Hk & -> & ->).
    exists k, (32 - k). rewrite Hrun by lia. unfold mask_of_prefix.
    replace (k + (32 - k)) with 32 by lia. repeat split; lia.
Qed.

End DottedNetmasks.

(** A dotted mask is accepted only when its binary rendering shows both a
    one and a zero, so the prefix sizes 0 and 32 never come from one. *)
Lemma netmaskToPrefixSize_dotted_range (s : string) (n : number) :
  Str.indexOf "." s <> -1 ->
  netmaskToPrefixSize (VStr s) = Ok (Some n) ->
  exists p, n = Int p /\ 1 <= p <= 31.
Proof.
  intros Hdot H.
  destruct (ipv4DotNotationToNumber_cases s) as [[a Ha]|He].
  - destruct (ipv4DotNotationToNumber_range s a Ha) as (v & -> & _).
    destruct (proj1 (dotted_netmask_accepted_iff s v n Hdot Ha) H)
      as (k & j & Hk & Hj & Hkj & _ & ->).
    exists k. split; [reflexivity|lia].
  - unfold netmaskToPrefixSize, ip in H.
    destruct (Z.eqb_spec (Str.indexOf "." s) (-1)); [contradiction|].
    rewrite He in H. discriminate.
Qed.



(** C2. The dotted mask 0.255.255.0 is not a run of ones followed by a run
    of zeros, and yet it is normalized to the prefix size 16: the binary
    rendering drops the leading zeros before the two indices are taken. *)
Theorem leading_zero_mask_accepted :
  ipv4DotNotationToNumber (VStr "0.255.255.0") = Ok (Int 16776960) /\
  contiguous_mask 16776960 = false /\
  Num.toString2 (Int 16776960) = "111111111111111100000000" /\
  netmaskToPrefixSize (VStr "0.255.255.0") = Ok (Some (Int 16)).
Proof. repeat split; vm_compute; reflexivity. Qed.

(** C3, as stated, fails: neither dotted mask is given a prefix size. *)
Lemma all_ones_all_zeros_not_normalized :
  ~ (netmaskToPrefixSize (VStr "255.255.255.255") = Ok (Some (Int 32)) /\
     netmaskToPrefixSize (VStr "0.0.0.0") = Ok (Some (Int 0))).
Proof. intros [H _]. vm_compute in H. discriminate. Qed.

(** C3, amended. The dotted masks 255.255.255.255 and 0.0.0.0 are both
    normalized to [null]: a dotted mask only ever yields a prefix size
    between 1 and 31.  The sizes 32 and 0 come from the numeric forms. *)
Theorem all_ones_all_zeros_give_null :
  netmaskToPrefixSize (VStr "255.255.255.255") = Ok None /\
  netmaskToPrefixSize (VStr "0.0.0.0") = Ok None /\
  (forall s n,
      Str.indexOf "." s <> -1 ->
      netmaskToPrefixSize (VStr s) = Ok (Some n) ->
      exists p, n = Int p /\ 1 <= p <= 31) /\
  netmaskToPrefixSize (VNum (Int 32)) = Ok (Some (Int 32)) /\
  netmaskToPrefixSize (VStr "32") = Ok (Some (Int 32)) /\
  netmaskToPrefixSize (VNum (Int 0)) = Ok (Some (Int 0)) /\
  netmaskToPrefixSize (VStr "0") = Ok (Some (Int 0)).
Proof.
  split; [reflexivity|]. split; [reflexivity|].
  split; [exact netmaskToPrefixSize_dotted_range|].
  repeat split.
Qed.

Lemma all_ones_all_zeros_give_null_witness :
  Str.indexOf "." "255.255.255.0" <> -1 /\
  netmaskToPrefixSize (VStr "255.255.255.0") = Ok (Some (Int 24)) /\
  exists p, Int 24 = Int p /\ 1 <= p <= 31.
Proof.
  assert (Str.indexOf "." "255.255.255.0" <> -1) as Hdot
    by (vm_compute; discriminate).
  assert (netmaskToPrefixSize (VStr "255.255.255.0") = Ok (Some (Int 24)))
    as Hmask by reflexivity.
  split; [exact Hdot|]. split; [exact Hmask|].
  exact (proj1 (proj2 (proj2 all_ones_all_zeros_give_null))
           "255.255.255.0" (Int 24) Hdot Hmask).
Defined.

(** ** Subnets *)

Section Bits.

Lemma wrap_int32_mod (x : Z) :
  Num.wrap_int32 x mod 2 ^ 32 = x mod 2 ^ 32.
Proof.
  unfold Num.wrap_int32.
  rewrite <- Zminus_mod_idemp_l, Z.mod_mod by lia.
  rewrite Zminus_mod_idemp_l. f_equal. lia.
Qed.

(** With all 32 mask bits set, masking leaves a 32-bit address as it is. *)
Lemma land_full_mask (A : Z) :
  0 <= A <= 4294967295 ->
  Num.ushr (Num.land (Int A) (Int 4294967295)) (Int 0) = Int A.
Proof.
  intros HA. unfold Num.ushr, Num.land, Num.ToUint32, Num.ToInt32.
  change (Num.wrap_int32 4294967295) with (-1).
  change (0 mod 2 ^ 32 mod 32) with 0.
  rewrite Z.land_m1_r, Z.shiftr_0_r, !wrap_int32_mod.
  rewrite Z.mod_small by lia. reflexivity.
Qed.

(** [0xffffffff << bits] for the two shift counts that are 0 modulo 32. *)
Lemma full_mask_0 :
  Num.ushr (Num.shl (Int 4294967295) (Int 0)) (Int 0) = Int 4294967295.
Proof. reflexivity. Qed.

Lemma full_mask_32 :
  Num.ushr (Num.shl (Int 4294967295) (Int 32)) (Int 0) = Int 4294967295.
Proof. reflexivity. Qed.

End Bits.

Section MaskedAddress.

Variables (A bits : Z).
Hypothesis HA : 0 <= A <= 4294967295.
Hypothesis Hbits : 0 <= bits <= 31.

Lemma pow2_bits_bounds : 1 <= 2 ^ bits <= 2 ^ 31.
Proof.
  split.
  - pose proof (Z.pow_pos_nonneg 2 bits). lia.
  - apply Z.pow_le_mono_r; lia.
Qed.

(** [(0xffffffff << bits) >>> 0] is the mask of [32 - bits] ones. *)
Lemma shifted_mask :
  Num.ushr (Num.shl (Int 4294967295) (Int bits)) (Int 0) =
  Int (2 ^ 32 - 2 ^ bits).
Proof.
  pose proof pow2_bits_bounds as Hp.
  unfold Num.ushr, Num.shl, Num.ToUint32, Num.ToInt32.
  change (Num.wrap_int32 4294967295) with (-1).
  change (0 mod 2 ^ 32 mod 32) with 0.
  rewrite (Z.mod_small bits (2 ^ 32)) by lia.
  rewrite (Z.mod_small bits 32) by lia.
  rewrite Z.shiftl_mul_pow2, Z.shiftr_0_r, wrap_int32_mod by lia.
  f_equal.
  replace (-1 * 2 ^ bits) with (2 ^ 32 - 2 ^ bits + (-1) * 2 ^ 32) by lia.
  rewrite Z.mod_add by lia. apply Z.mod_small. lia.
Qed.

Lemma two_pow_32_split : 2 ^ 32 = 2 ^ (32 - bits) * 2 ^ bits.
Proof. rewrite <- Z.pow_add_r by lia. f_equal. lia. Qed.

(** Masking clears the [bits] low bits of the address. *)
Lemma masked_address :
  Num.ushr (Num.land (Int A) (Int (2 ^ 32 - 2 ^ bits))) (Int 0) =
  Int (A - A mod 2 ^ bits).
Proof.
  pose proof pow2_bits_bounds as Hp.
  unfold Num.ushr, Num.land, Num.ToUint32, Num.ToInt32.
  change (0 mod 2 ^ 32 mod 32) with 0.
  rewrite Z.shiftr_0_r, wrap_int32_mod. f_equal.
  assert (Num.wrap_int32 (2 ^ 32 - 2 ^ bits) = Z.lnot (Z.ones bits)) as ->.
  { unfold Num.wrap_int32.
    replace (2 ^ 32 - 2 ^ bits + 2 ^ 31)
      with (2 ^ 31 - 2 ^ bits + 1 * 2 ^ 32) by lia.
    rewrite Z.mod_add, Z.mod_small by lia.
    rewrite Z.ones_equiv. unfold Z.lnot. lia. }
  rewrite <- Z.ldiff_land, Z.ldiff_ones_r by lia.
  rewrite Z.shiftr_div_pow2, Z.shiftl_mul_pow2 by lia.
  assert (exists k, Num.wrap_int32 A = A + k * 2 ^ 32) as [k ->].
  { unfold Num.wrap_int32.
    exists (- ((A + 2 ^ 31) / 2 ^ 32)).
    pose proof (Z.div_mod (A + 2 ^ 31) (2 ^ 32)). lia. }
  rewrite two_pow_32_split at 1.
  rewrite Z.mul_assoc, Z.div_add by lia.
  rewrite Z.mul_add_distr_r, <- Z.mul_assoc, <- two_pow_32_split.
  rewrite Z.mod_add by lia.
  pose proof (Z.div_mod A (2 ^ bits)).
  pose proof (Z.mod_pos_bound A (2 ^ bits)).
  pose proof (Z.mod_le A (2 ^ bits)).
  rewrite Z.mod_small; lia.
Qed.

Lemma masked_address_bounds :
  0 <= A - A mod 2 ^ bits /\ A - A mod 2 ^ bits + 2 ^ bits <= 2 ^ 32.
Proof.
  pose proof pow2_bits_bounds as Hp.
  pose proof (Z.div_mod A (2 ^ bits)).
  pose proof (Z.mod_pos_bound A (2 ^ bits)).
  pose proof (Z.mod_le A (2 ^ bits)).
  split; [lia|].
  assert (A / 2 ^ bits < 2 ^ (32 - bits)).
  { apply Z.div_lt_upper_bound; [lia|].
    rewrite Z.mul_comm, <- two_pow_32_split. lia. }
  replace (A - A mod 2 ^ bits) with (2 ^ bits * (A / 2 ^ bits)) by lia.
  rewrite two_pow_32_split. nia.
Qed.

End MaskedAddress.

(** The subnet of a valid address for a prefix size between 1 and 30: the
    network address clears the [32 - P] low bits, and the four boundary
    addresses follow from it. *)
Lemma subnet_general (A P : Z) (netmask : value) :
  0 <= A <= 4294967295 ->
  netmaskToPrefixSize netmask = Ok (Some (Int P)) ->
  1 <= P <= 30 ->
  subnet (Int A) netmask =
  Ok {| size := Int (2 ^ (32 - P));
        network := Some (notation_of (network_of A P));
        first := notation_of (network_of A P + 1);
        last := notation_of (network_of A P + 2 ^ (32 - P) - 2);
        broadcast := Some (notation_of (network_of A P + 2 ^ (32 - P) - 1));
        cidr := notation_of A ++ "/" ++ str P;
        ipNumeric := Int A;
        networkNumeric := Some (Int (network_of A P));
        firstNumeric := Int (network_of A P + 1);
        broadcastNumeric := Some (Int (network_of A P + 2 ^ (32 - P) - 1));
        lastNumeric := Int (network_of A P + 2 ^ (32 - P) - 2) |}.
Proof.
  intros HA Hp HP. unfold subnet, network_of. rewrite Hp.
  cbn [bind prefixToNumber prefixToString].
  replace (Num.sub (Int 32) (Int P)) with (Int (32 - P))
    by (cbn; f_equal; lia).
  rewrite shifted_mask, masked_address by lia.
  pose proof (pow2_bits_bounds (32 - P) ltac:(lia)) as Hpow.
  assert (4 <= 2 ^ (32 - P)) as Hfour
    by (change 4 with (2 ^ 2); apply Z.pow_le_mono_r; lia).
  pose proof (masked_address_bounds A (32 - P) HA ltac:(lia)) as [Hlo Hhi].
  set (n := A - A mod 2 ^ (32 - P)) in *.
  cbn [pow2 Num.add Num.sub Num.neg Num.lt].
  destruct (Z.ltb_spec P 31); [|lia].
  replace (n + 2 ^ (32 - P) + - (2)) with (n + 2 ^ (32 - P) - 2) by lia.
  replace (n + 2 ^ (32 - P) + - (1)) with (n + 2 ^ (32 - P) - 1) by lia.
  rewrite !ipv4NumberToDotNotation_valid by lia.
  reflexivity.
Qed.

(** With the prefix size 31 the subnet is the pair of addresses that differ
    in the last bit: no network or broadcast address, the first address is
    the given one and the last the upper one of the pair. *)
Lemma subnet_prefix31 (A : Z) (netmask : value) :
  0 <= A <= 4294967295 ->
  netmaskToPrefixSize netmask = Ok (Some (Int 31)) ->
  subnet (Int A) netmask =
  Ok {| size := Int 2;
        network := None;
        first := notation_of A;
        last := notation_of (network_of A 31 + 1);
        broadcast := None;
        cidr := notation_of A ++ "/31";
        ipNumeric := Int A;
        networkNumeric := None;
        firstNumeric := Int A;
        broadcastNumeric := None;
        lastNumeric := Int (network_of A 31 + 1) |}.
Proof.
  intros HA Hp. unfold subnet, network_of. rewrite Hp.
  cbn [bind prefixToNumber prefixToString].
  change (Num.sub (Int 32) (Int 31)) with (Int 1).
  rewrite (shifted_mask 1), (masked_address A 1) by lia.
  pose proof (masked_address_bounds A 1 HA ltac:(lia)) as [Hlo Hhi].
  change (32 - 31) with 1. change (2 ^ 1) with 2 in *.
  set (n := A - A mod 2) in *.
  change (pow2 (Int 1)) with (Int 2).
  change (Num.lt (Int 31) (Int 31)) with false. cbv iota.
  cbn [Num.add Num.sub Num.neg].
  replace (n + 2 + - (1)) with (n + 1) by lia.
  rewrite !ipv4NumberToDotNotation_valid by lia.
  reflexivity.
Qed.

(** C9. With the prefix size 32 and a valid address [A], the subnet has
    size 1, its first and last addresses are both the dot-decimal notation
    of [A], and it has neither network nor broadcast address. *)
Theorem prefix32_single_host (A : Z) (netmask : value) :
  0 <= A <= 4294967295 ->
  netmaskToPrefixSize netmask = Ok (Some (Int 32)) ->
  exists s d,
    ipv4NumberToDotNotation (VNum (Int A)) = Ok d /\
    subnet (Int A) netmask = Ok s /\
    size s = Int 1 /\ first s = d /\ last s = d /\
    network s = None /\ broadcast s = None.
Proof.
  intros HA Hp. unfold subnet. rewrite Hp.
  cbn [bind prefixToNumber prefixToString].
  change (Num.sub (Int 32) (Int 32)) with (Int 0).
  rewrite full_mask_0, land_full_mask by assumption.
  change (Num.lt (Int 32) (Int 31)) with false. cbv iota.
  change (pow2 (Int 0)) with (Int 1).
  replace (Num.sub (Num.add (Int A) (Int 1)) (Int 1)) with (Int A)
    by (cbn; f_equal; lia).
  rewrite (ipv4NumberToDotNotation_valid A HA). cbn [bind].
  do 2 eexists. repeat split.
Qed.

Lemma prefix32_single_host_witness :
  0 <= 167772165 <= 4294967295 /\
  netmaskToPrefixSize (VStr "32") = Ok (Some (Int 32)) /\
  exists s d,
    ipv4NumberToDotNotation (VNum (Int 167772165)) = Ok d /\
    subnet (Int 167772165) (VStr "32") = Ok s /\
    size s = Int 1 /\ first s = d /\ last s = d /\
    network s = None /\ broadcast s = None.
Proof.
  split; [lia|]. split; [reflexivity|].
  apply (prefix32_single_host 167772165 (VStr "32")).
  - lia.
  - reflexivity.
Defined.

(** When the prefix size counts as 0, be it the number 0 or [null], the
    shift count is 32, which is 0 modulo 32: the mask is all ones and the
    address is left unmasked.  For the address 0.0.0.0 the subnet is the
    whole address space. *)
Lemma subnet_zero_prefix_of_zero (netmask : value)
    (prefixSize : option number) :
  netmaskToPrefixSize netmask = Ok prefixSize ->
  prefixToNumber prefixSize = Int 0 ->
  subnet (Int 0) netmask =
  Ok {| size := Int 4294967296;
        network := Some "0.0.0.0";
        first := "0.0.0.1";
        last := "255.255.255.254";
        broadcast := Some "255.255.255.255";
        cidr := "0.0.0.0/" ++ prefixToString prefixSize;
        ipNumeric := Int 0;
        networkNumeric := Some (Int 0);
        firstNumeric := Int 1;
        broadcastNumeric := Some (Int 4294967295);
        lastNumeric := Int 4294967294 |}.
Proof.
  intros Hp Hzero. unfold subnet. rewrite Hp. cbn [bind]. rewrite Hzero.
  reflexivity.
Qed.

(** For any other address one of the four boundary addresses falls beyond
    255.255.255.255, and formatting it throws. *)
Lemma subnet_zero_prefix_throws (A : Z) (netmask : value)
    (prefixSize : option number) :
  1 <= A <= 4294967295 ->
  netmaskToPrefixSize netmask = Ok prefixSize ->
  prefixToNumber prefixSize = Int 0 ->
  exists v,
    subnet (Int A) netmask = Throw (Error (VNum (Int v))) /\
    4294967295 < v.
Proof.
  intros HA Hp Hzero. unfold subnet. rewrite Hp. cbn [bind]. rewrite Hzero.
  change (Num.sub (Int 32) (Int 0)) with (Int 32).
  rewrite full_mask_32, land_full_mask by lia.
  change (pow2 (Int 32)) with (Int 4294967296).
  rewrite (ipv4NumberToDotNotation_valid A) by lia. cbn [bind].
  change (Num.lt (Int 0) (Int 31)) with true. cbv iota.
  cbn [Num.add Num.sub Num.neg].
  destruct (Z.eq_dec A 4294967295) as [->|Hmax].
  - eexists. split; [reflexivity|lia].
  - rewrite (ipv4NumberToDotNotation_valid (A + 1)) by lia. cbn [bind].
    destruct (Z.eq_dec A 1) as [->|Hone].
    + eexists. split; [reflexivity|lia].
    + rewrite (ipv4NumberToDotNotation_out_of_range (A + 4294967296 + - (2)))
        by lia.
      cbn [bind]. eexists. split; [reflexivity|lia].
Qed.

(** The prefix size 0: every address but 0.0.0.0 makes [subnet] throw. *)
Lemma subnet_prefix0_throws (A : Z) :
  1 <= A <= 4294967295 ->
  exists v,
    subnet (Int A) (VNum (Int 0)) = Throw (Error (VNum (Int v))) /\
    4294967295 < v.
Proof.
  intros HA.
  now apply (subnet_zero_prefix_throws A (VNum (Int 0)) (Some (Int 0))).
Qed.

(** A netmask normalized to [null]: the same, and the error is the one of an
    invalid address. *)
Lemma subnet_null_prefix_throws (A : Z) (netmask : value) :
  1 <= A <= 4294967295 ->
  netmaskToPrefixSize netmask = Ok None ->
  exists v,
    subnet (Int A) netmask = Throw (Error (VNum (Int v))) /\
    4294967295 < v.
Proof.
  intros HA Hnull.
  now apply (subnet_zero_prefix_throws A netmask None).
Qed.

(** C1. The prefix size 0 is accepted, but the mask computed for it is
    4294967295 and not 0: for the address 127.0.0.1 the last usable address
    would be 6425673727, and construction throws the invalid-address error. *)
Theorem prefix0_construction_throws :
  netmaskToPrefixSize (VNum (Int 0)) = Ok (Some (Int 0)) /\
  Num.ushr (Num.shl (Int 4294967295) (Int 32)) (Int 0) = Int 4294967295 /\
  ip (VStr "127.0.0.1") =
    Ok {| numeric := Int 2130706433; notation := "127.0.0.1" |} /\
  subnet (Int 2130706433) (VNum (Int 0)) =
    Throw (Error (VNum (Int 6425673727))).
Proof. repeat split; vm_compute; reflexivity. Qed.

(** C5. The netmasks 33, "abc" and 255.0.255.0 are all normalized to
    [null], and [subnet] goes on with it: for the address 0.0.0.0 it returns
    a subnet, whose CIDR string ends in "null". *)
Theorem invalid_netmask_subnet_returned :
  netmaskToPrefixSize (VNum (Int 33)) = Ok None /\
  netmaskToPrefixSize (VStr "abc") = Ok None /\
  netmaskToPrefixSize (VStr "255.0.255.0") = Ok None /\
  subnet (Int 0) (VNum (Int 33)) =
    Ok {| size := Int 4294967296;
          network := Some "0.0.0.0";
          first := "0.0.0.1";
          last := "255.255.255.254";
          broadcast := Some "255.255.255.255";
          cidr := "0.0.0.0/null";
          ipNumeric := Int 0;
          networkNumeric := Some (Int 0);
          firstNumeric := Int 1;
          broadcastNumeric := Some (Int 4294967295);
          lastNumeric := Int 4294967294 |}.
Proof. repeat split; vm_compute; reflexivity. Qed.

(** X19. For a valid address and a prefix size between 1 and 30, [contains]
    answers true for a candidate that is a valid address exactly when it
    lies between the lower bound and the broadcast address; the lower bound
    is the network address, unless that is 0, in which case it is 1. *)
Lemma contains_general (A P c : Z) (netmask address : value) (s : Subnet)
    (a : Address) :
  0 <= A <= 4294967295 ->
  netmaskToPrefixSize netmask = Ok (Some (Int P)) ->
  1 <= P <= 30 ->
  subnet (Int A) netmask = Ok s ->
  ip address = Ok a -> valueOf a = Int c ->
  exists b,
    contains s address = Ok b /\
    (b = true <->
     (if network_of A P =? 0 then 1 else network_of A P) <= c
     <= network_of A P + 2 ^ (32 - P) - 1).
Proof.
  intros HA Hp HP Hs Ha Hc.
  rewrite (subnet_general A P netmask HA Hp HP) in Hs.
  pose proof (pow2_bits_bounds (32 - P) ltac:(lia)) as Hpow.
  pose proof (masked_address_bounds A (32 - P) HA ltac:(lia)) as [Hlo Hhi].
  fold (network_of A P) in Hlo, Hhi.
  assert (4 <= 2 ^ (32 - P)) as Hfour
    by (change 4 with (2 ^ 2); apply Z.pow_le_mono_r; lia).
  set (n := network_of A P) in *. set (sz := 2 ^ (32 - P)) in *.
  injection Hs as <-. unfold contains. rewrite Ha. cbn [bind].
  rewrite Hc.
  cbn [networkNumeric firstNumeric broadcastNumeric lastNumeric or_else truthy].
  eexists. split; [reflexivity|].
  destruct (Z.eqb_spec n 0) as [E|E];
    destruct (Z.eqb_spec (n + sz - 1) 0);
    try lia; cbn [negb];
    unfold Num.ge, Num.le, Num.lt, Num.eq;
    rewrite andb_true_iff, !orb_true_iff, !Z.ltb_lt, !Z.eqb_eq; lia.
Qed.

(** C4. In the subnet 0.0.0.5/24 the network address is 0 and the broadcast
    address 255, and [contains] answers false for 0.0.0.0, given as a string
    or as a number: a network address of 0 counts as absent, and the first
    usable address, 1, is taken as the lower bound. *)
Theorem contains_excludes_network_zero :
  exists s,
    subnet (Int 5) (VNum (Int 24)) = Ok s /\
    networkNumeric s = Some (Int 0) /\
    broadcastNumeric s = Some (Int 255) /\
    contains s (VStr "0.0.0.0") = Ok false /\
    contains s (VNum (Int 0)) = Ok false.
Proof. eexists. repeat split; vm_compute; reflexivity. Qed.

(** ** Further properties of the converters *)

(** Formatting a valid address and reading the notation back. *)
Lemma ipv4DotNotationToNumber_notation_of (n : Z) :
  0 <= n <= 4294967295 ->
  ipv4DotNotationToNumber (VStr (notation_of n)) = Ok (Int n).
Proof.
  intros Hn.
  destruct (octets_of_address n Hn) as (H3 & H2 & H1 & H0 & Hsum).
  unfold notation_of.
  rewrite ipv4DotNotationToNumber_dotted by assumption.
  now rewrite Hsum.
Qed.

(** What formatting does with an integer: the range test decides. *)
Lemma ipv4NumberToDotNotation_integer (n : Z) :
  ipv4NumberToDotNotation (VNum (Int n)) =
  if (0 <=? n) && (n <=? 4294967295)
  then Ok (notation_of n)
  else Throw (Error (VNum (Int n))).
Proof.
  destruct (Z.leb_spec 0 n), (Z.leb_spec n 4294967295); cbn [andb].
  - apply ipv4NumberToDotNotation_valid. lia.
  - apply ipv4NumberToDotNotation_out_of_range. lia.
  - apply ipv4NumberToDotNotation_out_of_range. lia.
  - apply ipv4NumberToDotNotation_out_of_range. lia.
Qed.

(** X1. A string is accepted exactly when each of its first four pieces
    reads, by [parseInt], as an integer between 0 and 255; the result is
    then their big-endian base-256 value.  Every other string is refused
    with the invalid-address error that quotes it. *)
Theorem parse_specification (s : string) :
  (forall n,
      ipv4DotNotationToNumber (VStr s) = Ok n <->
      exists d0 d1 d2 d3,
        reads_octet (Str.index (Str.split_dot s) 0) d0 /\
        reads_octet (Str.index (Str.split_dot s) 1) d1 /\
        reads_octet (Str.index (Str.split_dot s) 2) d2 /\
        reads_octet (Str.index (Str.split_dot s) 3) d3 /\
        n = Int (base256 d0 d1 d2 d3)) /\
  ((forall n, ipv4DotNotationToNumber (VStr s) <> Ok n) ->
   ipv4DotNotationToNumber (VStr s) = Throw (Error (VStr s))).
Proof.
  split.
  - intros n. apply ipv4DotNotationToNumber_ok_iff.
  - intros Hno.
    destruct (ipv4DotNotationToNumber_cases s) as [[n Hn]|E]; [|exact E].
    now destruct (Hno n).
Qed.

(** X2. Whatever is parsed is an integer between 0 and 4294967295. *)
Theorem parsed_address_in_range (v : value) (n : number) :
  ipv4DotNotationToNumber v = Ok n ->
  exists a, n = Int a /\ 0 <= a <= 4294967295.
Proof.
  destruct v as [| | | |s|]; try discriminate. intros H.
  apply ipv4DotNotationToNumber_ok_iff in H
    as (d0 & d1 & d2 & d3 & [_ H0] & [_ H1] & [_ H2] & [_ H3] & ->).
  exists (base256 d0 d1 d2 d3). split; [reflexivity|].
  unfold base256. lia.
Qed.

Lemma parsed_address_in_range_witness :
  ipv4DotNotationToNumber (VStr "255.255.255.255") = Ok (Int 4294967295) /\
  exists a, Int 4294967295 = Int a /\ 0 <= a <= 4294967295.
Proof.
  split; [reflexivity|].
  apply (parsed_address_in_range (VStr "255.255.255.255") (Int 4294967295)).
  reflexivity.
Defined.

Lemma fewer_than_four_segments_rejected_witness :
  (List.length (Str.split_dot "1.2.3") < 4)%nat /\
  ipv4DotNotationToNumber (VStr "1.2.3") = Throw (Error (VStr "1.2.3")).
Proof.
  assert (List.length (Str.split_dot "1.2.3") < 4)%nat as H
    by (vm_compute; lia).
  split; [exact H|]. exact (fewer_than_four_segments_rejected "1.2.3" H).
Defined.

(** X4. Parsing throws [TypeError] exactly for the arguments that are not
    strings: a string is never refused with it. *)
Theorem parse_type_error_iff_not_string (v : value) :
  (exists t, ipv4DotNotationToNumber v = Throw (TypeError t)) <->
  typeof v <> TString.
Proof.
  split.
  - intros [t Ht]. destruct v as [| | | |s|]; try discriminate.
    destruct (ipv4DotNotationToNumber_cases s) as [[n E]|E];
      rewrite E in Ht; discriminate.
  - intros Hty. destruct v; cbn; eauto. now destruct Hty.
Qed.

Lemma parse_then_format_canonical_witness :
  ipv4DotNotationToNumber (VStr "127.00.0.1") = Ok (Int 2130706433) /\
  exists d0 d1 d2 d3,
    reads_octet (Str.index (Str.split_dot "127.00.0.1") 0) d0 /\
    reads_octet (Str.index (Str.split_dot "127.00.0.1") 1) d1 /\
    reads_octet (Str.index (Str.split_dot "127.00.0.1") 2) d2 /\
    reads_octet (Str.index (Str.split_dot "127.00.0.1") 3) d3 /\
    ipv4NumberToDotNotation (VNum (Int 2130706433)) = Ok (dotted d0 d1 d2 d3).
Proof.
  split; [reflexivity|].
  apply (parse_then_format_canonical "127.00.0.1" (Int 2130706433)).
  reflexivity.
Defined.

(** X6. An integer is formatted exactly when it lies between 0 and
    4294967295; any other integer is refused with the invalid-address error
    that quotes it. *)
Theorem format_integer_iff_in_range (n : Z) :
  ((exists s, ipv4NumberToDotNotation (VNum (Int n)) = Ok s) <->
   0 <= n <= 4294967295) /\
  ((n < 0 \/ 4294967295 < n) ->
   ipv4NumberToDotNotation (VNum (Int n)) = Throw (Error (VNum (Int n)))).
Proof.
  rewrite ipv4NumberToDotNotation_integer.
  destruct (Z.leb_spec 0 n), (Z.leb_spec n 4294967295); cbn [andb];
    (split; [split|]); try lia; try (intros [s Hs]; discriminate); eauto.
Qed.

(** X7. The notation of a valid address has exactly four pieces: the
    decimal renderings of its four base-256 digits, the most significant
    first. *)
Theorem format_four_octets (n : Z) :
  0 <= n <= 4294967295 ->
  exists s,
    ipv4NumberToDotNotation (VNum (Int n)) = Ok s /\
    Str.split_dot s =
    [str (n / 16777216); str (n / 65536 mod 256);
     str (n / 256 mod 256); str (n mod 256)].
Proof.
  intros Hn. exists (notation_of n).
  split; [now apply ipv4NumberToDotNotation_valid|].
  destruct (octets_of_address n Hn) as (H3 & H2 & H1 & H0 & _).
  unfold notation_of.
  rewrite split_dot_dotted by (apply octet_no_dot; assumption).
  rewrite !Z.rem_mod_nonneg by (repeat apply Z.div_pos; lia).
  rewrite !Z.div_div by lia.
  change (256 * 256 * 256) with 16777216. change (256 * 256) with 65536.
  rewrite (Z.mod_small (n / 16777216)); [reflexivity|].
  split; [apply Z.div_pos; lia|apply Z.div_lt_upper_bound; lia].
Qed.

Lemma format_four_octets_witness :
  0 <= 2130706433 <= 4294967295 /\
  exists s,
    ipv4NumberToDotNotation (VNum (Int 2130706433)) = Ok s /\
    Str.split_dot s =
    [str (2130706433 / 16777216); str (2130706433 / 65536 mod 256);
     str (2130706433 / 256 mod 256); str (2130706433 mod 256)].
Proof.
  split; [lia|]. apply (format_four_octets 2130706433). lia.
Defined.

(** X8. Two valid addresses with the same notation are the same address. *)
Theorem format_injective (n m : Z) :
  0 <= n <= 4294967295 -> 0 <= m <= 4294967295 ->
  ipv4NumberToDotNotation (VNum (Int n)) =
  ipv4NumberToDotNotation (VNum (Int m)) ->
  n = m.
Proof.
  intros Hn Hm.
  rewrite !ipv4NumberToDotNotation_valid by assumption.
  intros [= E].
  pose proof (ipv4DotNotationToNumber_notation_of n Hn) as Pn.
  pose proof (ipv4DotNotationToNumber_notation_of m Hm) as Pm.
  rewrite E in Pn. congruence.
Qed.

Lemma format_injective_witness :
  0 <= 1 <= 4294967295 /\
  ipv4NumberToDotNotation (VNum (Int 1)) =
  ipv4NumberToDotNotation (VNum (Int 1)) /\ 1 = 1.
Proof.
  split; [lia|]. split; [reflexivity|].
  apply (format_injective 1 1); [lia|lia|reflexivity].
Defined.

(** ** Further properties of addresses *)

(** X9. An address whose value is an integer can be built again from its own
    notation, and the value and the notation are the same. *)
Theorem ip_toString_roundtrip (v : value) (a : Address) (n : Z) :
  ip v = Ok a -> valueOf a = Int n ->
  exists a',
    ip (VStr (toString a)) = Ok a' /\
    valueOf a' = Int n /\ toString a' = toString a.
Proof.
  unfold ip. destruct v as [| | |m|s|]; try discriminate.
  - destruct (ipv4NumberToDotNotation (VNum m)) as [t|e] eqn:E;
      cbn [bind]; [|discriminate].
    intros [= <-]. cbn [valueOf toString numeric notation]. intros ->.
    rewrite ipv4NumberToDotNotation_integer in E.
    destruct (Z.leb_spec 0 n), (Z.leb_spec n 4294967295); cbn [andb] in E;
      try discriminate.
    injection E as <-.
    rewrite ipv4DotNotationToNumber_notation_of by lia. cbn [bind].
    eexists. repeat split.
  - destruct (ipv4DotNotationToNumber (VStr s)) as [m|e] eqn:E;
      cbn [bind]; [|discriminate].
    intros [= <-]. cbn [valueOf toString numeric notation]. intros ->.
    rewrite E. cbn [bind]. eexists. repeat split.
Qed.

Lemma ip_toString_roundtrip_witness :
  ip (VNum (Int 2130706433)) =
    Ok {| numeric := Int 2130706433; notation := "127.0.0.1" |} /\
  exists a',
    ip (VStr "127.0.0.1") = Ok a' /\
    valueOf a' = Int 2130706433 /\ toString a' = "127.0.0.1".
Proof.
  split; [reflexivity|].
  apply (ip_toString_roundtrip (VNum (Int 2130706433))
           {| numeric := Int 2130706433; notation := "127.0.0.1" |}
           2130706433); reflexivity.
Defined.



(** X11. [ip] throws [TypeError] exactly for the arguments that are neither
    strings nor numbers; for a string or a number its only error is the
    invalid-address error that quotes the argument. *)
Theorem ip_error_kinds (v : value) :
  ((exists t, ip v = Throw (TypeError t)) <->
   typeof v <> TString /\ typeof v <> TNumber) /\
  (forall e, ip v = Throw e ->
             typeof v = TString \/ typeof v = TNumber -> e = Error v).
Proof.
  unfold ip. destruct v as [| | |m|s|]; cbn [typeof].
  all: try (split;
            [split; [intros _; split; discriminate | intros _; eauto]
            |intros e _ [H|H]; discriminate]).
  - destruct (ipv4NumberToDotNotation_number m) as [E|[t E]]; rewrite E;
      cbn [bind]; (split; [split|]).
    all: try (intros [t' H]; discriminate).
    all: try (intros [_ H]; now destruct H).
    all: try (intros e [= <-] _; reflexivity).
    all: try (intros e H; discriminate).
  - destruct (ipv4DotNotationToNumber_cases s) as [[n E]|E]; rewrite E;
      cbn [bind]; (split; [split|]).
    all: try (intros [t' H]; discriminate).
    all: try (intros [H _]; now destruct H).
    all: try (intros e [= <-] _; reflexivity).
    all: try (intros e H; discriminate).
Qed.

(** ** Further properties of netmasks *)

Lemma indexOf_no_dot (s : string) :
  no_dot s = true -> Str.indexOf "." s = -1.
Proof.
  induction s as [|c s IH]; cbn [no_dot Str.indexOf]; intros H;
    [reflexivity|].
  apply andb_prop in H as [Hc Hs]. apply negb_true_iff in Hc.
  rewrite Hc, (IH Hs). reflexivity.
Qed.

Lemma indexOf_lower (c : ascii) (u : string) : -1 <= Str.indexOf c u.
Proof.
  induction u as [|d u IH]; cbn [Str.indexOf]; [lia|].
  destruct (Ascii.eqb d c); [lia|].
  destruct (Z.eqb_spec (Str.indexOf c u) (-1)); lia.
Qed.

Lemma indexOf_app_dot (s t : string) :
  Str.indexOf "." (s ++ "." ++ t) <> -1.
Proof.
  induction s as [|c s IH].
  - cbn. discriminate.
  - change (String c s ++ "." ++ t)%string
      with (String c (s ++ "." ++ t)).
    cbn [Str.indexOf].
    pose proof (indexOf_lower "." (s ++ "." ++ t)).
    destruct (Ascii.eqb c "."); [discriminate|].
    destruct (Z.eqb_spec (Str.indexOf "." (s ++ "." ++ t)) (-1));
      [contradiction|lia].
Qed.

(** A number as netmask: the prefix size itself when it is an integer
    between 0 and 32, [null] otherwise. *)
Lemma netmaskToPrefixSize_integer (p : Z) :
  netmaskToPrefixSize (VNum (Int p)) =
  Ok (if (0 <=? p) && (p <=? 32) then Some (Int p) else None).
Proof.
  cbn [netmaskToPrefixSize]. unfold Num.ge, Num.le, Num.lt, Num.eq.
  rewrite Z.eqb_refl.
  destruct (Z.leb_spec 0 p), (Z.leb_spec p 32), (Z.ltb_spec 0 p),
    (Z.eqb_spec 0 p), (Z.ltb_spec p 32), (Z.eqb_spec p 32);
    cbn; try reflexivity; lia.
Qed.

(** The decimal string of a prefix size. *)
Lemma netmaskToPrefixSize_decimal_string (p : Z) :
  0 <= p <= 32 ->
  netmaskToPrefixSize (VStr (str p)) = Ok (Some (Int p)).
Proof.
  intros Hp. cbn [netmaskToPrefixSize].
  rewrite indexOf_no_dot by (apply octet_no_dot; lia). cbn [Z.eqb negb].
  rewrite octet_parseInt by lia.
  pose proof (netmaskToPrefixSize_integer p) as H.
  cbn [netmaskToPrefixSize] in H. rewrite H.
  destruct (Z.leb_spec 0 p), (Z.leb_spec p 32); cbn [andb];
    try reflexivity; lia.
Qed.

(** The dotted form of [p] ones followed by zeros. *)
Lemma netmaskToPrefixSize_dotted_mask (p : Z) :
  1 <= p <= 31 ->
  netmaskToPrefixSize (VStr (notation_of (mask_of_prefix p))) =
  Ok (Some (Int p)).
Proof.
  intros Hp.
  assert (mask_of_prefix p = run_value p (32 - p)) as Hrun.
  { unfold mask_of_prefix, run_value.
    rewrite Z.mul_sub_distr_r, <- Z.pow_add_r by lia.
    replace (p + (32 - p)) with 32 by lia. lia. }
  assert (0 <= mask_of_prefix p <= 4294967295) as Hrange.
  { unfold mask_of_prefix.
    assert (2 ^ 1 <= 2 ^ (32 - p) <= 2 ^ 31)
      by (split; apply Z.pow_le_mono_r; lia).
    change (2 ^ 1) with 2 in *. lia. }
  rewrite (netmaskToPrefixSize_dotted _ (mask_of_prefix p)).
  - rewrite Hrun. now rewrite prefix_of_rendering_complete by lia.
  - unfold notation_of, dotted. apply indexOf_app_dot.
  - now apply ipv4DotNotationToNumber_notation_of.
Qed.


(** X13. What a dotted mask that parses to the value [v] is normalized to:
    when [v] is [k] ones followed by [j] zeros, [k] and [j] at least 1 and
    [k + j] at most 32, the prefix size is [k], whatever the number
    [32 - k - j] of zero bits in front; for every other value the result is
    [null].  The function does not throw. *)
Theorem dotted_netmask_outcome (s : string) (v : Z) :
  Str.indexOf "." s <> -1 ->
  ipv4DotNotationToNumber (VStr s) = Ok (Int v) ->
  (exists k j,
      1 <= k /\ 1 <= j /\ k + j <= 32 /\ v = run_value k j /\
      netmaskToPrefixSize (VStr s) = Ok (Some (Int k))) \/
  ((forall k j, 1 <= k -> 1 <= j -> k + j <= 32 -> v <> run_value k j) /\
   netmaskToPrefixSize (VStr s) = Ok None).
Proof.
  intros Hdot Hv.
  destruct (ipv4DotNotationToNumber_range s (Int v) Hv) as (v' & [= <-] & Hr).
  rewrite (netmaskToPrefixSize_dotted s v Hdot Hv).
  destruct (prefix_of_rendering (Num.toString2 (Int v))) as [n|] eqn:E.
  - left.
    destruct (prefix_of_rendering_sound v n Hr E)
      as (k & j & Hk & Hj & Hkj & Hrun & ->).
    exists k, j. repeat split; assumption.
  - right. split; [|reflexivity].
    intros k j Hk Hj Hkj ->.
    rewrite prefix_of_rendering_complete in E by assumption.
    discriminate.
Qed.

Lemma dotted_netmask_outcome_witness :
  Str.indexOf "." "0.255.255.0" <> -1 /\
  ipv4DotNotationToNumber (VStr "0.255.255.0") = Ok (Int 16776960) /\
  ((exists k j,
       1 <= k /\ 1 <= j /\ k + j <= 32 /\ 16776960 = run_value k j /\
       netmaskToPrefixSize (VStr "0.255.255.0") = Ok (Some (Int k))) \/
   ((forall k j,
        1 <= k -> 1 <= j -> k + j <= 32 -> 16776960 <> run_value k j) /\
    netmaskToPrefixSize (VStr "0.255.255.0") = Ok None)).
Proof.
  assert (Str.indexOf "." "0.255.255.0" <> -1) as Hdot
    by (vm_compute; discriminate).
  assert (ipv4DotNotationToNumber (VStr "0.255.255.0") = Ok (Int 16776960))
    as Hv by reflexivity.
  split; [exact Hdot|]. split; [exact Hv|].
  exact (dotted_netmask_outcome "0.255.255.0" 16776960 Hdot Hv).
Defined.

Lemma leading_one_netmask_accepted_iff_witness :
  Str.indexOf "." "255.255.255.0" <> -1 /\
  ipv4DotNotationToNumber (VStr "255.255.255.0") = Ok (Int 4294967040) /\
  2 ^ 31 <= 4294967040 /\
  (netmaskToPrefixSize (VStr "255.255.255.0") = Ok (Some (Int 24)) <->
   exists k, 1 <= k <= 31 /\ 4294967040 = mask_of_prefix k /\ Int 24 = Int k).
Proof.
  assert (Str.indexOf "." "255.255.255.0" <> -1) as Hdot
    by (vm_compute; discriminate).
  assert (ipv4DotNotationToNumber (VStr "255.255.255.0") =
          Ok (Int 4294967040)) as Hv by reflexivity.
  assert (2 ^ 31 <= 4294967040) as Htop by (vm_compute; discriminate).
  split; [exact Hdot|]. split; [exact Hv|]. split; [exact Htop|].
  exact (leading_one_netmask_accepted_iff "255.255.255.0" 4294967040 (Int 24)
           Hdot Hv Htop).
Defined.

(** X15. The three ways of writing a prefix size between 1 and 31 are
    normalized to the same prefix size: the number, its decimal string, and
    the dotted mask of that many ones followed by zeros. *)
Theorem netmask_forms_agree (p : Z) :
  1 <= p <= 31 ->
  netmaskToPrefixSize (VNum (Int p)) = Ok (Some (Int p)) /\
  netmaskToPrefixSize (VStr (str p)) = Ok (Some (Int p)) /\
  netmaskToPrefixSize (VStr (notation_of (mask_of_prefix p))) =
  Ok (Some (Int p)).
Proof.
  intros Hp. split; [|split].
  - rewrite netmaskToPrefixSize_integer.
    destruct (Z.leb_spec 0 p), (Z.leb_spec p 32); cbn [andb];
      try reflexivity; lia.
  - apply netmaskToPrefixSize_decimal_string. lia.
  - now apply netmaskToPrefixSize_dotted_mask.
Qed.

Lemma netmask_forms_agree_witness :
  1 <= 24 <= 31 /\
  netmaskToPrefixSize (VNum (Int 24)) = Ok (Some (Int 24)) /\
  netmaskToPrefixSize (VStr "24") = Ok (Some (Int 24)) /\
  netmaskToPrefixSize (VStr "255.255.255.0") = Ok (Some (Int 24)).
Proof.
  split; [lia|]. apply (netmask_forms_agree 24). lia.
Defined.


(** ** Further properties of subnets *)

(** The subnet of a valid address for the prefix size 32. *)
Lemma subnet_prefix32 (A : Z) (netmask : value) :
  0 <= A <= 4294967295 ->
  netmaskToPrefixSize netmask = Ok (Some (Int 32)) ->
  subnet (Int A) netmask =
  Ok {| size := Int 1;
        network := None;
        first := notation_of A;
        last := notation_of A;
        broadcast := None;
        cidr := notation_of A ++ "/32";
        ipNumeric := Int A;
        networkNumeric := None;
        firstNumeric := Int A;
        broadcastNumeric := None;
        lastNumeric := Int A |}.
Proof.
  intros HA Hp. unfold subnet. rewrite Hp.
  cbn [bind prefixToNumber prefixToString].
  change (Num.sub (Int 32) (Int 32)) with (Int 0).
  rewrite full_mask_0, land_full_mask by assumption.
  change (Num.lt (Int 32) (Int 31)) with false. cbv iota.
  change (pow2 (Int 0)) with (Int 1).
  replace (Num.sub (Num.add (Int A) (Int 1)) (Int 1)) with (Int A)
    by (cbn; f_equal; lia).
  rewrite (ipv4NumberToDotNotation_valid A HA). reflexivity.
Qed.

(** [contains] compares the value of the candidate with the two bounds the
    subnet keeps. *)
Lemma contains_between (s : Subnet) (address : value) (a : Address)
    (c lo hi : Z) :
  ip address = Ok a -> valueOf a = Int c ->
  or_else (networkNumeric s) (firstNumeric s) = Int lo ->
  or_else (broadcastNumeric s) (lastNumeric s) = Int hi ->
  contains s address = Ok ((lo <=? c) && (c <=? hi)).
Proof.
  intros Ha Hc Hlo Hhi. unfold contains. rewrite Ha. cbn [bind].
  rewrite Hc, Hlo, Hhi. unfold Num.ge, Num.le, Num.lt, Num.eq.
  f_equal. f_equal.
  - destruct (Z.ltb_spec lo c), (Z.eqb_spec lo c), (Z.leb_spec lo c);
      cbn; try reflexivity; lia.
  - destruct (Z.ltb_spec c hi), (Z.eqb_spec c hi), (Z.leb_spec c hi);
      cbn; try reflexivity; lia.
Qed.

Lemma network_of_facts (A P : Z) :
  0 <= A <= 4294967295 -> 1 <= P <= 31 ->
  0 <= network_of A P /\
  network_of A P <= A <= network_of A P + 2 ^ (32 - P) - 1 /\
  network_of A P + 2 ^ (32 - P) - 1 <= 4294967295 /\
  network_of A P mod 2 ^ (32 - P) = 0 /\
  2 <= 2 ^ (32 - P).
Proof.
  intros HA HP.
  pose proof (pow2_bits_bounds (32 - P) ltac:(lia)) as Hpow.
  pose proof (masked_address_bounds A (32 - P) HA ltac:(lia)) as [Hlo Hhi].
  assert (2 ^ 1 <= 2 ^ (32 - P)) as Htwo by (apply Z.pow_le_mono_r; lia).
  change (2 ^ 1) with 2 in Htwo.
  pose proof (Z.mod_pos_bound A (2 ^ (32 - P)) ltac:(lia)) as Hmod.
  unfold network_of in *. repeat split; try lia.
  rewrite Zminus_mod_idemp_r, Z.sub_diag. apply Z.mod_0_l. lia.
Qed.

(** X17. For a valid address [A] and a prefix size [P] between 1 and 30 the
    subnet is built without error.  Its network address is [A] with the
    [32 - P] low bits cleared, a multiple of the size [2 ^ (32 - P)] with
    network <= [A] <= broadcast; broadcast is network + size - 1, first is
    network + 1 and last is broadcast - 1; all of them are valid addresses,
    given in the object by their notations. *)
Theorem subnet_boundaries (A P : Z) (netmask : value) :
  0 <= A <= 4294967295 ->
  netmaskToPrefixSize netmask = Ok (Some (Int P)) ->
  1 <= P <= 30 ->
  exists s n sz,
    subnet (Int A) netmask = Ok s /\
    sz = 2 ^ (32 - P) /\ 4 <= sz /\ size s = Int sz /\
    n mod sz = 0 /\ 0 <= n <= A /\ A <= n + sz - 1 <= 4294967295 /\
    networkNumeric s = Some (Int n) /\
    firstNumeric s = Int (n + 1) /\
    lastNumeric s = Int (n + sz - 2) /\
    broadcastNumeric s = Some (Int (n + sz - 1)) /\
    network s = Some (notation_of n) /\
    first s = notation_of (n + 1) /\
    last s = notation_of (n + sz - 2) /\
    broadcast s = Some (notation_of (n + sz - 1)).
Proof.
  intros HA Hp HP.
  destruct (network_of_facts A P HA ltac:(lia)) as (H0 & HA' & Hmax & Hmod & _).
  assert (4 <= 2 ^ (32 - P)) as Hfour
    by (change 4 with (2 ^ 2); apply Z.pow_le_mono_r; lia).
  eexists. exists (network_of A P), (2 ^ (32 - P)).
  split; [apply (subnet_general A P netmask HA Hp HP)|].
  cbn [size networkNumeric firstNumeric lastNumeric broadcastNumeric
       network first last broadcast].
  repeat split; try assumption; try lia.
Qed.

Lemma subnet_boundaries_witness :
  0 <= 2130706433 <= 4294967295 /\
  netmaskToPrefixSize (VStr "255.255.255.0") = Ok (Some (Int 24)) /\
  1 <= 24 <= 30 /\
  exists s n sz,
    subnet (Int 2130706433) (VStr "255.255.255.0") = Ok s /\
    sz = 2 ^ (32 - 24) /\ 4 <= sz /\ size s = Int sz /\
    n mod sz = 0 /\ 0 <= n <= 2130706433 /\
    2130706433 <= n + sz - 1 <= 4294967295 /\
    networkNumeric s = Some (Int n) /\
    firstNumeric s = Int (n + 1) /\
    lastNumeric s = Int (n + sz - 2) /\
    broadcastNumeric s = Some (Int (n + sz - 1)) /\
    network s = Some (notation_of n) /\
    first s = notation_of (n + 1) /\
    last s = notation_of (n + sz - 2) /\
    broadcast s = Some (notation_of (n + sz - 1)).
Proof.
  split; [lia|]. split; [reflexivity|]. split; [lia|].
  apply (subnet_boundaries 2130706433 24 (VStr "255.255.255.0"));
    [lia|reflexivity|lia].
Defined.

(** X18. With the prefix size 31 the subnet of a valid address [A] is built
    without error, has size 2 and neither network nor broadcast address;
    its first address is [A] itself and its last address the odd one of the
    pair [A] belongs to: [A + 1] when [A] is even, [A] when it is odd. *)
Theorem prefix31_pair (A : Z) (netmask : value) :
  0 <= A <= 4294967295 ->
  netmaskToPrefixSize netmask = Ok (Some (Int 31)) ->
  exists s,
    subnet (Int A) netmask = Ok s /\
    size s = Int 2 /\ network s = None /\ broadcast s = None /\
    first s = notation_of A /\
    last s = notation_of (if Z.even A then A + 1 else A) /\
    subnet_toString s = (notation_of A ++ "/31")%string.
Proof.
  intros HA Hp. eexists.
  split; [apply (subnet_prefix31 A netmask HA Hp)|].
  cbn [size network broadcast first last subnet_toString cidr].
  repeat split. f_equal. unfold network_of. change (2 ^ (32 - 31)) with 2.
  rewrite Zmod_even. destruct (Z.even A); lia.
Qed.

Lemma prefix31_pair_witness :
  0 <= 167772161 <= 4294967295 /\
  netmaskToPrefixSize (VNum (Int 31)) = Ok (Some (Int 31)) /\
  exists s,
    subnet (Int 167772161) (VNum (Int 31)) = Ok s /\
    size s = Int 2 /\ network s = None /\ broadcast s = None /\
    first s = notation_of 167772161 /\
    last s = notation_of (if Z.even 167772161 then 167772161 + 1
                          else 167772161) /\
    subnet_toString s = (notation_of 167772161 ++ "/31")%string.
Proof.
  split; [lia|]. split; [reflexivity|].
  apply (prefix31_pair 167772161 (VNum (Int 31))); [lia|reflexivity].
Defined.

Lemma contains_general_witness :
  0 <= 2130706433 <= 4294967295 /\
  netmaskToPrefixSize (VNum (Int 24)) = Ok (Some (Int 24)) /\
  1 <= 24 <= 30 /\
  exists b,
    (let* s := subnet (Int 2130706433) (VNum (Int 24)) in
     contains s (VStr "127.0.0.5")) = Ok b /\
    (b = true <->
     (if network_of 2130706433 24 =? 0 then 1
      else network_of 2130706433 24) <= 2130706437
     <= network_of 2130706433 24 + 2 ^ (32 - 24) - 1).
Proof.
  split; [lia|]. split; [reflexivity|]. split; [lia|].
  destruct (subnet (Int 2130706433) (VNum (Int 24))) as [s|e] eqn:Hs;
    [|discriminate Hs].
  cbn [bind].
  apply (contains_general 2130706433 24 2130706437 (VNum (Int 24))
           (VStr "127.0.0.5") s
           {| numeric := Int 2130706437; notation := "127.0.0.5" |});
    [lia|reflexivity|lia|exact Hs|reflexivity|reflexivity].
Defined.

(** X20. A subnet of prefix size 1 to 30 contains its own broadcast address,
    and it contains the address it was built from, unless that address is
    0.0.0.0. *)
Theorem contains_broadcast_and_own_address (A P : Z) (netmask : value)
    (s : Subnet) :
  0 <= A <= 4294967295 ->
  netmaskToPrefixSize netmask = Ok (Some (Int P)) ->
  1 <= P <= 30 ->
  subnet (Int A) netmask = Ok s ->
  contains s (VNum (Int (network_of A P + 2 ^ (32 - P) - 1))) = Ok true /\
  contains s (VNum (Int A)) = Ok (negb (A =? 0)).
Proof.
  intros HA Hp HP Hs.
  rewrite (subnet_general A P netmask HA Hp HP) in Hs. injection Hs as <-.
  destruct (network_of_facts A P HA ltac:(lia)) as (H0 & HA' & Hmax & _ & _).
  assert (4 <= 2 ^ (32 - P)) as Hfour
    by (change 4 with (2 ^ 2); apply Z.pow_le_mono_r; lia).
  set (n := network_of A P) in *. set (sz := 2 ^ (32 - P)) in *.
  assert (forall c, 0 <= c <= 4294967295 ->
            contains
              {| size := Int sz; network := Some (notation_of n);
                 first := notation_of (n + 1);
                 last := notation_of (n + sz - 2);
                 broadcast := Some (notation_of (n + sz - 1));
                 cidr := notation_of A ++ "/" ++ str P;
                 ipNumeric := Int A; networkNumeric := Some (Int n);
                 firstNumeric := Int (n + 1);
                 broadcastNumeric := Some (Int (n + sz - 1));
                 lastNumeric := Int (n + sz - 2) |} (VNum (Int c)) =
            Ok (((if n =? 0 then n + 1 else n) <=? c) && (c <=? n + sz - 1)))
    as Hcontains.
  { intros c Hc.
    apply (contains_between _ _ {| numeric := Int c;
                                   notation := notation_of c |}).
    - unfold ip. now rewrite ipv4NumberToDotNotation_valid.
    - reflexivity.
    - cbn [networkNumeric firstNumeric or_else truthy].
      now destruct (n =? 0).
    - cbn [broadcastNumeric lastNumeric or_else truthy].
      destruct (Z.eqb_spec (n + sz - 1) 0); [lia|reflexivity]. }
  split; rewrite Hcontains by lia; f_equal;
    destruct (Z.eqb_spec n 0); lia.
Qed.

Lemma contains_broadcast_and_own_address_witness :
  exists s,
    subnet (Int 2130706433) (VNum (Int 24)) = Ok s /\
    contains s (VNum (Int (network_of 2130706433 24 + 2 ^ (32 - 24) - 1))) =
      Ok true /\
    contains s (VNum (Int 2130706433)) = Ok (negb (2130706433 =? 0)).
Proof.
  eexists. split; [reflexivity|].
  apply (contains_broadcast_and_own_address 2130706433 24 (VNum (Int 24)));
    [lia|reflexivity|lia|reflexivity].
Defined.

(** X21. A subnet of prefix size 32 contains exactly the address it was
    built from. *)
Theorem contains_prefix32 (A c : Z) (netmask address : value)
    (s : Subnet) (a : Address) :
  0 <= A <= 4294967295 ->
  netmaskToPrefixSize netmask = Ok (Some (Int 32)) ->
  subnet (Int A) netmask = Ok s ->
  ip address = Ok a -> valueOf a = Int c ->
  contains s address = Ok (c =? A).
Proof.
  intros HA Hp Hs Ha Hc.
  rewrite (subnet_prefix32 A netmask HA Hp) in Hs. injection Hs as <-.
  rewrite (contains_between _ address a c A A Ha Hc); try reflexivity.
  f_equal. lia.
Qed.

Lemma contains_prefix32_witness :
  exists s,
    subnet (Int 167772165) (VNum (Int 32)) = Ok s /\
    contains s (VStr "10.0.0.5") = Ok (167772165 =? 167772165) /\
    contains s (VStr "10.0.0.4") = Ok (167772164 =? 167772165).
Proof.
  eexists. split; [reflexivity|]. split.
  - apply (contains_prefix32 167772165 167772165 (VNum (Int 32))
             (VStr "10.0.0.5") _
             {| numeric := Int 167772165; notation := "10.0.0.5" |});
      [lia|reflexivity|reflexivity|reflexivity|reflexivity].
  - apply (contains_prefix32 167772165 167772164 (VNum (Int 32))
             (VStr "10.0.0.4") _
             {| numeric := Int 167772164; notation := "10.0.0.4" |});
      [lia|reflexivity|reflexivity|reflexivity|reflexivity].
Defined.

(** X22. A subnet of prefix size 31 contains the addresses from the one it
    was built from up to the odd address of its pair: both addresses of the
    pair when it was built from the even one, only the odd one when it was
    built from the odd one. *)
Theorem contains_prefix31 (A c : Z) (netmask address : value)
    (s : Subnet) (a : Address) :
  0 <= A <= 4294967295 ->
  netmaskToPrefixSize netmask = Ok (Some (Int 31)) ->
  subnet (Int A) netmask = Ok s ->
  ip address = Ok a -> valueOf a = Int c ->
  contains s address =
  Ok (if Z.even A then (c =? A) || (c =? A + 1) else c =? A).
Proof.
  intros HA Hp Hs Ha Hc.
  rewrite (subnet_prefix31 A netmask HA Hp) in Hs. injection Hs as <-.
  rewrite (contains_between _ address a c A (network_of A 31 + 1) Ha Hc);
    try reflexivity.
  f_equal. unfold network_of. change (2 ^ (32 - 31)) with 2.
  rewrite Zmod_even.
  destruct (Z.even A); lia.
Qed.

Lemma contains_prefix31_witness :
  exists s,
    subnet (Int 167772161) (VNum (Int 31)) = Ok s /\
    contains s (VStr "10.0.0.0") =
      Ok (if Z.even 167772161
          then (167772160 =? 167772161) || (167772160 =? 167772161 + 1)
          else 167772160 =? 167772161).
Proof.
  eexists. split; [reflexivity|].
  apply (contains_prefix31 167772161 167772160 (VNum (Int 31))
           (VStr "10.0.0.0") _
           {| numeric := Int 167772160; notation := "10.0.0.0" |});
    [lia|reflexivity|reflexivity|reflexivity|reflexivity].
Defined.

(** The CIDR string and the [valueOf] of whatever [subnet] returns. *)
Lemma subnet_cidr (ipNumeric : number) (netmask : value)
    (prefixSize : option number) (s : Subnet) :
  netmaskToPrefixSize netmask = Ok prefixSize ->
  subnet ipNumeric netmask = Ok s ->
  subnet_valueOf s = ipNumeric /\
  exists d,
    ipv4NumberToDotNotation (VNum ipNumeric) = Ok d /\
    subnet_toString s = (d ++ "/" ++ prefixToString prefixSize)%string.
Proof.
  intros Hp. unfold subnet. rewrite Hp. cbn [bind].
  set (m := Num.ushr _ _). clearbody m.
  set (sz := pow2 _). clearbody sz.
  destruct (ipv4NumberToDotNotation (VNum ipNumeric)) as [d|e];
    cbn [bind]; [|discriminate].
  destruct (Num.lt (prefixToNumber prefixSize) (Int 31)).
  - destruct (ipv4NumberToDotNotation (VNum (Num.add m (Int 1))));
      cbn [bind]; [|discriminate].
    destruct (ipv4NumberToDotNotation
                (VNum (Num.sub (Num.add m sz) (Int 2))));
      cbn [bind]; [|discriminate].
    destruct (ipv4NumberToDotNotation (VNum m)); cbn [bind]; [|discriminate].
    destruct (ipv4NumberToDotNotation
                (VNum (Num.sub (Num.add m sz) (Int 1))));
      cbn [bind]; [|discriminate].
    intros [= <-]. split; [reflexivity|]. exists d. split; reflexivity.
  - destruct (ipv4NumberToDotNotation
                (VNum (Num.sub (Num.add m sz) (Int 1))));
      cbn [bind]; [|discriminate].
    intros [= <-]. split; [reflexivity|]. exists d. split; reflexivity.
Qed.

(** X23. The CIDR string of a subnet is formatted from the number of the
    address, followed by a slash and the normalized prefix size: the subnet
    obtained through [mask] from an address built from a string does not
    repeat that string but its canonical notation.  Its [valueOf] is the
    value of the address. *)
Theorem mask_toString_canonical (text : string) (a : Address)
    (netmask : value) (prefixSize : option number) (s : Subnet) :
  ip (VStr text) = Ok a ->
  netmaskToPrefixSize netmask = Ok prefixSize ->
  mask a netmask = Ok s ->
  exists v,
    valueOf a = Int v /\ 0 <= v <= 4294967295 /\
    subnet_valueOf s = Int v /\
    subnet_toString s =
    (notation_of v ++ "/" ++ prefixToString prefixSize)%string.
Proof.
  unfold ip, mask. intros Ha Hp Hs.
  destruct (ipv4DotNotationToNumber (VStr text)) as [n|e] eqn:E;
    cbn [bind] in Ha; [|discriminate].
  injection Ha as <-. cbn [valueOf numeric] in *.
  destruct (ipv4DotNotationToNumber_range text n E) as (v & -> & Hv).
  destruct (subnet_cidr (Int v) netmask prefixSize s Hp Hs)
    as (Hval & d & Hd & Hcidr).
  rewrite (ipv4NumberToDotNotation_valid v Hv) in Hd. injection Hd as <-.
  exists v. repeat split; assumption || lia.
Qed.

Lemma mask_toString_canonical_witness :
  ip (VStr "127.00.0.1") =
    Ok {| numeric := Int 2130706433; notation := "127.00.0.1" |} /\
  netmaskToPrefixSize (VStr "255.255.255.0") = Ok (Some (Int 24)) /\
  exists s v,
    mask {| numeric := Int 2130706433; notation := "127.00.0.1" |}
      (VStr "255.255.255.0") = Ok s /\
    valueOf {| numeric := Int 2130706433; notation := "127.00.0.1" |} =
      Int v /\
    0 <= v <= 4294967295 /\
    subnet_valueOf s = Int v /\
    subnet_toString s =
    (notation_of v ++ "/" ++ prefixToString (Some (Int 24)))%string.
Proof.
  assert (ip (VStr "127.00.0.1") =
          Ok {| numeric := Int 2130706433; notation := "127.00.0.1" |})
    as Ha by (vm_compute; reflexivity).
  assert (netmaskToPrefixSize (VStr "255.255.255.0") = Ok (Some (Int 24)))
    as Hp by (vm_compute; reflexivity).
  assert (mask {| numeric := Int 2130706433; notation := "127.00.0.1" |}
            (VStr "255.255.255.0") =
          Ok {| size := Int 256;
                network := Some "127.0.0.0";
                first := "127.0.0.1";
                last := "127.0.0.254";
                broadcast := Some "127.0.0.255";
                cidr := "127.0.0.1/24";
                ipNumeric := Int 2130706433;
                networkNumeric := Some (Int 2130706432);
                firstNumeric := Int 2130706433;
                broadcastNumeric := Some (Int 2130706687);
                lastNumeric := Int 2130706686 |})
    as Hs by (vm_compute; reflexivity).
  split; [exact Ha|]. split; [exact Hp|].
  destruct (mask_toString_canonical _ _ _ _ _ Ha Hp Hs) as (v & H).
  eexists. exists v. split; [exact Hs|exact H].
Defined.

(** X24. The three ways of writing a prefix size between 1 and 31 give the
    same subnet of any address: the number, its decimal string and the
    dotted mask. *)
Theorem netmask_forms_same_subnet (ipNumeric : number) (p : Z) :
  1 <= p <= 31 ->
  subnet ipNumeric (VStr (str p)) = subnet ipNumeric (VNum (Int p)) /\
  subnet ipNumeric (VStr (notation_of (mask_of_prefix p))) =
  subnet ipNumeric (VNum (Int p)).
Proof.
  intros Hp. unfold subnet.
  rewrite netmaskToPrefixSize_decimal_string by lia.
  rewrite netmaskToPrefixSize_dotted_mask by lia.
  rewrite netmaskToPrefixSize_integer.
  destruct (Z.leb_spec 0 p), (Z.leb_spec p 32); cbn [andb]; try lia.
  split; reflexivity.
Qed.

Lemma netmask_forms_same_subnet_witness :
  1 <= 24 <= 31 /\
  subnet (Int 2130706433) (VStr "24") =
    subnet (Int 2130706433) (VNum (Int 24)) /\
  subnet (Int 2130706433) (VStr "255.255.255.0") =
    subnet (Int 2130706433) (VNum (Int 24)).
Proof.
  split; [lia|]. apply (netmask_forms_same_subnet (Int 2130706433) 24). lia.
Defined.

(** ** The earlier revision *)

(** X25. The formatter of the earlier revision gives what the current one
    gives: the same string on the same arguments, and an error of the same
    kind otherwise.  Its loop counts from 3 down to 0 where the current one
    counts from 4 down to 1. *)
Theorem legacy_format_agrees (v : value) :
  Legacy.ipv4NumberToDotNotation v =
  legacy_outcome (ipv4NumberToDotNotation v).
Proof.
  destruct v as [| | |n|s|]; try reflexivity.
  unfold Legacy.ipv4NumberToDotNotation, ipv4NumberToDotNotation.
  destruct (Num.lt n (Int 0) || Num.gt n (Int 4294967295)); reflexivity.
Qed.

(** X26. The parser of the earlier revision accepts the same strings as the
    current one, with the same value; it only names the error differently
    for a string without any dot, which the current one refuses as well. *)
Theorem legacy_parse_agrees (v : value) :
  Legacy.ipv4DotNotationToNumber v =
  match v with
  | VStr s =>
      if Str.indexOf "." s =? -1
      then Legacy.Throw Legacy.MalformedAddress
      else legacy_outcome (ipv4DotNotationToNumber v)
  | _ => legacy_outcome (ipv4DotNotationToNumber v)
  end /\
  (forall s, v = VStr s -> Str.indexOf "." s = -1 ->
             ipv4DotNotationToNumber v = Throw (Error v)).
Proof.
  split.
  - destruct v as [| | | |s|]; try reflexivity.
    unfold Legacy.ipv4DotNotationToNumber, ipv4DotNotationToNumber.
    pose proof (indexOf_lower "." s) as Hlow.
    destruct (Z.ltb_spec (Str.indexOf "." s) 0),
      (Z.eqb_spec (Str.indexOf "." s) (-1)); try lia; try reflexivity.
    generalize (Str.split_dot s) as l. intros l.
    assert (forall steps i acc,
               Legacy.ipv4DotNotationToNumber_loop l steps i acc =
               legacy_outcome (ipv4DotNotationToNumber_loop s l steps i acc))
      as Hloop.
    { induction steps as [|steps IH]; intros i acc; [reflexivity|].
      cbn [Legacy.ipv4DotNotationToNumber_loop ipv4DotNotationToNumber_loop].
      destruct (negb _ || _ || _); [reflexivity|apply IH]. }
    apply Hloop.
  - intros s -> Hdot.
    assert (forall t, Str.indexOf "." t = -1 -> Str.split_dot t = [t])
      as Hone.
    { induction t as [|c t IH]; cbn [Str.indexOf Str.split_dot];
        [reflexivity|].
      destruct (Ascii.eqb c "."); [discriminate|].
      destruct (Z.eqb_spec (Str.indexOf "." t) (-1)) as [E|E].
      - intros _. now rewrite (IH E).
      - pose proof (indexOf_lower "." t). lia. }
    destruct (ipv4DotNotationToNumber_cases s) as [[n Hn]|H]; [|exact H].
    apply ipv4DotNotationToNumber_ok_iff in Hn
      as (d0 & d1 & d2 & d3 & _ & [H1 _] & _).
    rewrite (Hone s Hdot) in H1. vm_compute in H1. discriminate.
Qed.
